(** * Conway's Game of Life board (src/main.py): model and properties

    The Tk program keeps the simulation in one [Board] object: the grid
    of buttons [cells], the list [active_cells] of the buttons that are
    alive, the flag [_stopped], the [speed] and the colours.  The model
    below follows the methods of [Board] and [ControllerPanel] statement
    by statement, in a state monad over the board that also carries the
    Python exception a statement may raise. *)

From Stdlib Require Import ZArith List Bool Lia String.
Import ListNotations.
Open Scope Z_scope.

(** ** Python values used by the board *)

(** A [tk.Button] is an object compared by identity.  [_init_grid],
    which [place] runs once, creates exactly one button per grid
    position, so a button is named by the position [(y, x)] it was
    created for. *)
Definition button : Type := (Z * Z)%type.

Definition color : Type := string.

Definition button_eqb (a b : button) : bool :=
  (fst a =? fst b) && (snd a =? snd b).

(** [x in l] on a Python list. *)
Definition contains (x : button) (l : list button) : bool :=
  existsb (button_eqb x) l.

(** [l.remove(x)] for an [x] known to be in [l]: the first occurrence
    goes away. *)
Fixpoint remove_first (x : button) (l : list button) : list button :=
  match l with
  | [] => []
  | y :: l' => if button_eqb x y then l' else y :: remove_first x l'
  end.

(** [range(lo, hi)]. *)
Definition range (lo hi : Z) : list Z :=
  map (fun k => lo + Z.of_nat k) (seq 0 (Z.to_nat (hi - lo))).

(** [l[i]]: a negative index counts from the end of the list, and an
    index outside [-len(l) .. len(l)-1] is an [IndexError] ([None]). *)
Definition getitem {A : Type} (l : list A) (i : Z) : option A :=
  let n := Z.of_nat (List.length l) in
  if 0 <=? i then nth_error l (Z.to_nat i)
  else if - n <=? i then nth_error l (Z.to_nat (n + i))
  else None.

(** [l.index(c)] on a list of colour names; [None] is [ValueError]. *)
Fixpoint index_of (c : color) (l : list color) : option Z :=
  match l with
  | [] => None
  | d :: l' =>
      if String.eqb d c then Some 0
      else match index_of c l' with
           | Some i => Some (i + 1)
           | None => None
           end
  end.

(** ** The board *)

Record Board : Type := mkBoard {
  nrows : Z;
  ncols : Z;
  active_colors : list color;
  disabled_color : color;
  speed : Z;
  cells : list (list button);
  active_cells : list button;
  _stopped : bool;
  (** the [bg] option of every button widget *)
  bg : button -> color;
  (** the calls [master.after(delay, self.update_cells)] the board has
      made, oldest first: each entry is the delay asked for, in
      milliseconds *)
  timers : list Z
}.

Definition set_active_cells (l : list button) (b : Board) : Board :=
  mkBoard (nrows b) (ncols b) (active_colors b) (disabled_color b) (speed b)
          (cells b) l (_stopped b) (bg b) (timers b).

Definition set_stopped (s : bool) (b : Board) : Board :=
  mkBoard (nrows b) (ncols b) (active_colors b) (disabled_color b) (speed b)
          (cells b) (active_cells b) s (bg b) (timers b).

Definition set_speed_field (v : Z) (b : Board) : Board :=
  mkBoard (nrows b) (ncols b) (active_colors b) (disabled_color b) v
          (cells b) (active_cells b) (_stopped b) (bg b) (timers b).

Definition set_cells (g : list (list button)) (b : Board) : Board :=
  mkBoard (nrows b) (ncols b) (active_colors b) (disabled_color b) (speed b)
          g (active_cells b) (_stopped b) (bg b) (timers b).

Definition set_bg (f : button -> color) (b : Board) : Board :=
  mkBoard (nrows b) (ncols b) (active_colors b) (disabled_color b) (speed b)
          (cells b) (active_cells b) (_stopped b) f (timers b).

Definition set_timers (t : list Z) (b : Board) : Board :=
  mkBoard (nrows b) (ncols b) (active_colors b) (disabled_color b) (speed b)
          (cells b) (active_cells b) (_stopped b) (bg b) t.

(** ** Statements: state and exceptions *)

Inductive exn : Type :=
| IndexError
| ValueError
| ZeroDivisionError.

Inductive result (A : Type) : Type :=
| Ret (a : A)
| Raise (e : exn).
Arguments Ret {A} a.
Arguments Raise {A} e.

(** A statement runs on a board and leaves a board behind, also when it
    raises: what it had mutated before the exception stays mutated. *)
Definition M (A : Type) : Type := Board -> result A * Board.

Definition ret {A : Type} (a : A) : M A := fun b => (Ret a, b).

Definition raise {A : Type} (e : exn) : M A := fun b => (Raise e, b).

Definition bind {A B : Type} (m : M A) (k : A -> M B) : M B :=
  fun b =>
    match m b with
    | (Ret a, b') => k a b'
    | (Raise e, b') => (Raise e, b')
    end.

Notation "x <- m ;; k" := (bind m (fun x => k))
  (at level 61, m at next level, right associativity).
Notation "m ;; k" := (bind m (fun _ => k))
  (at level 61, right associativity).

Definition gets {A : Type} (f : Board -> A) : M A := fun b => (Ret (f b), b).

Definition modify (f : Board -> Board) : M unit := fun b => (Ret tt, f b).

Definition from_option {A : Type} (e : exn) (o : option A) : M A :=
  match o with
  | Some a => ret a
  | None => raise e
  end.

(** [for x in xs: acc = body(x, acc)], the loop variables in [acc]. *)
Fixpoint for_each {X A : Type} (xs : list X) (body : X -> A -> M A) (acc : A)
  : M A :=
  match xs with
  | [] => ret acc
  | x :: xs' => acc' <- body x acc ;; for_each xs' body acc'
  end.

(** ** Widget operations *)

(** [button.configure(bg=c)], for a colour name Tk accepts. *)
Definition configure_bg (btn : button) (c : color) : M unit :=
  modify (fun b =>
    set_bg (fun x => if button_eqb x btn then c else bg b x) b).

(** [self.cells[row][col]]. *)
Definition cell_at (row col : Z) : M button :=
  g <- gets cells ;;
  r <- from_option IndexError (getitem g row) ;;
  from_option IndexError (getitem r col).

(** [self.master.after(delay, self.update_cells)]. *)
Definition after (delay : Z) : M unit :=
  modify (fun b => set_timers (timers b ++ [delay]) b).

(** ** Board.__init__, Board._init_grid and Board.place *)

(** The default arguments of [Board.__init__]. *)
Definition default_active_colors : list color :=
  ["white"; "#9BFF23"; "#23EEFF"; "#EB23FF"; "#FFA523"]%string.

(** [Board.__init__]: no grid yet, nothing alive, stopped. *)
Definition Board_init (nrows ncols : Z) (active_colors : list color)
    (disabled_color : color) (speed : Z) : Board :=
  mkBoard nrows ncols active_colors disabled_color speed
          [] [] true (fun _ => disabled_color) [].

(** [Board()]. *)
Definition Board_default : Board :=
  Board_init 20 50 default_active_colors "black"%string 20.

(** The grid of buttons [_init_grid] builds: row [y] holds the buttons
    made for the columns [0 .. ncols-1] of that row. *)
Definition make_grid (nr nc : Z) : list (list button) :=
  map (fun y => map (fun x => (y, x)) (range 0 nc)) (range 0 nr).

(** [_init_grid], as [place] runs it on the board [Board.__init__]
    made: the buttons are created with the disabled colour as
    background.  (A later call would create new button objects; the
    program makes one call only, and so does every board below.) *)
Definition _init_grid : M unit :=
  nr <- gets nrows ;;
  nc <- gets ncols ;;
  d <- gets disabled_color ;;
  modify (set_cells (make_grid nr nc)) ;;
  modify (set_bg (fun _ => d)).

(** [place]: the grid, then the flag and the first timer; the layout
    calls do not touch the board's state. *)
Definition place : M unit :=
  _init_grid ;;
  modify (set_stopped true) ;;
  after 1000.

(** ** Board.toggle_cell *)

(** The two ways the method is called: with a button (the command of
    every grid button, line 127) or with a column and a row. *)
Inductive target : Type :=
| ByButton (btn : button)
| ByCoord (col row : Z).

(** Lines 132-133: the button the call is about. *)
Definition resolve (t : target) : M button :=
  match t with
  | ByButton btn => ret btn
  | ByCoord col row => cell_at row col
  end.

(** Lines 135-143: cycle the colour of an active button, activate any
    other. *)
Definition toggle_button (btn : button) : M unit :=
  act <- gets active_cells ;;
  if contains btn act then
    colors <- gets active_colors ;;
    cur <- gets (fun b => bg b btn) ;;
    current_color_idx <- from_option ValueError (index_of cur colors) ;;
    let n := Z.of_nat (List.length colors) in
    (if n =? 0 then raise ZeroDivisionError else ret tt) ;;
    next_color <- from_option IndexError
                    (getitem colors ((current_color_idx + 1) mod n)) ;;
    configure_bg btn next_color
  else
    modify (fun b => set_active_cells (active_cells b ++ [btn]) b) ;;
    colors <- gets active_colors ;;
    c <- from_option IndexError (getitem colors 0) ;;
    configure_bg btn c.

(** [toggle_cell(col, row)] and [toggle_cell(button=btn)]. *)
Definition toggle_cell (t : target) : M unit :=
  btn <- resolve t ;;
  toggle_button btn.

(** ** Board.deactivate_cell *)

(** [deactivate_cell(button)]. *)
Definition deactivate_cell (btn : button) : M unit :=
  act <- gets active_cells ;;
  (if contains btn act
   then modify (set_active_cells (remove_first btn act))
   else ret tt) ;;
  d <- gets disabled_color ;;
  configure_bg btn d.

(** ** Board.get_neighbors_count *)

(** One pass of the inner loop body, for the position [(y, x)]. *)
Definition count_step (row col y x : Z) (count : Z) : M Z :=
  if negb ((y =? row) && (x =? col)) then
    c <- cell_at y x ;;
    act <- gets active_cells ;;
    if contains c act then ret (count + 1) else ret count
  else ret count.

(** [get_neighbors_count(row, col)]: the two loops over the clipped
    ranges, [count] as the loop variable. *)
Definition get_neighbors_count (row col : Z) : M Z :=
  nr <- gets nrows ;;
  nc <- gets ncols ;;
  for_each (range (Z.max 0 (row - 1)) (Z.min nr (row + 2)))
    (fun y count =>
       for_each (range (Z.max 0 (col - 1)) (Z.min nc (col + 2)))
         (fun x count => count_step row col y x count) count)
    0.

(** ** Board.update_cells *)

(** The delay computed from the speed slider (line 192). *)
Definition delay_of (speed : Z) : Z := Z.max 10 (1000 - speed * 9).

(** The body of the scan loop for [(row, col)]; the accumulator is
    [(cells_to_activate, cells_to_deactivate)]. *)
Definition scan_step (row col : Z) (acc : list button * list button)
  : M (list button * list button) :=
  alive_neighbors <- get_neighbors_count row col ;;
  current_cell <- cell_at row col ;;
  act <- gets active_cells ;;
  let is_alive := contains current_cell act in
  if negb is_alive && (alive_neighbors =? 3) then
    ret (fst acc ++ [current_cell], snd acc)
  else if is_alive && negb ((alive_neighbors =? 2) || (alive_neighbors =? 3))
  then ret (fst acc, snd acc ++ [current_cell])
  else ret acc.

(** Lines 166-179: the scan of the whole grid, row by row. *)
Definition scan : M (list button * list button) :=
  nr <- gets nrows ;;
  nc <- gets ncols ;;
  for_each (range 0 nr)
    (fun row acc => for_each (range 0 nc) (fun col acc => scan_step row col acc) acc)
    ([], []).

(** Lines 182-185: the body of the activation loop. *)
Definition activate_batch (btn : button) (_ : unit) : M unit :=
  act <- gets active_cells ;;
  if negb (contains btn act) then
    modify (fun b => set_active_cells (active_cells b ++ [btn]) b) ;;
    colors <- gets active_colors ;;
    c <- from_option IndexError (getitem colors 0) ;;
    configure_bg btn c
  else ret tt.

(** [update_cells]: nothing when stopped; otherwise the scan, the two
    batch loops and the next timer. *)
Definition update_cells : M unit :=
  stopped <- gets _stopped ;;
  if stopped then ret tt
  else
    lists <- scan ;;
    for_each (fst lists) activate_batch tt ;;
    for_each (snd lists) (fun btn _ => deactivate_cell btn) tt ;;
    s <- gets speed ;;
    after (delay_of s).

(** ** Board.stop, Board.resume and ControllerPanel.set_speed *)

(** [stop()]. *)
Definition stop : M unit := modify (set_stopped true).

(** [resume()]. *)
Definition resume : M unit :=
  modify (set_stopped false) ;;
  update_cells.

(** [set_speed(value)]: the slider hands over its position, an integer;
    [int(value)] is that integer. *)
Definition set_speed (value : Z) : M unit :=
  modify (set_speed_field value).

(** The board a statement leaves behind. *)
Definition exec {A : Type} (m : M A) (b : Board) : Board := snd (m b).

(** A timer firing: the event loop calls the callback it was given,
    [update_cells]. *)
Definition tick : M unit := update_cells.

(** [n] timers firing one after the other. *)
Fixpoint ticks (n : nat) (b : Board) : Board :=
  match n with
  | O => b
  | S n' => ticks n' (exec tick b)
  end.

(** ** ControllerPanel.change_pause_state *)

(** The panel, as far as [change_pause_state] uses it: the board it
    drives, the two symbols and the text the pause button shows. *)
Record ControllerPanel : Type := mkControllerPanel {
  board : Board;
  symbols : list string;
  pause_button_text : string
}.

Definition pause_symbol : string := "⏸"%string.

Definition play_symbol : string := "▷"%string.

(** [ControllerPanel.__init__]: the button starts with [symbols[1]]. *)
Definition ControllerPanel_init (b : Board) : ControllerPanel :=
  mkControllerPanel b [pause_symbol; play_symbol] play_symbol.

(** [change_pause_state]: the button takes the other symbol, then the
    board is resumed when the new symbol is the first one and stopped
    otherwise. *)
Definition change_pause_state (p : ControllerPanel)
  : result unit * ControllerPanel :=
  match index_of (pause_button_text p) (symbols p) with
  | None => (Raise ValueError, p)
  | Some current_symbol_idx =>
      let n := Z.of_nat (List.length (symbols p)) in
      if n =? 0 then (Raise ZeroDivisionError, p)
      else
        let next_idx := (current_symbol_idx + 1) mod n in
        match getitem (symbols p) next_idx with
        | None => (Raise IndexError, p)
        | Some text =>
            let (r, b') :=
              (if next_idx =? 0 then resume else stop) (board p) in
            (r, mkControllerPanel b' (symbols p) text)
        end
  end.

(** ** The event loop *)

(** One of the requests made with [master.after] comes due, the [k]-th
    of those still waiting: Tk drops it and calls its callback,
    [update_cells].  Here [timers] holds the requests still waiting. *)
Definition fire (k : nat) (b : Board) : result unit * Board :=
  match nth_error (timers b) k with
  | None => (Ret tt, b)
  | Some _ =>
      update_cells (set_timers (firstn k (timers b) ++ skipn (S k) (timers b)) b)
  end.

(** What a user or the event loop can do to a board. *)
Inductive action : Type :=
| Toggle (t : target)
| Deactivate (btn : button)
| Tick
| Stop
| Resume
| SetSpeed (v : Z).

Definition perform (a : action) : M unit :=
  match a with
  | Toggle t => toggle_cell t
  | Deactivate btn => deactivate_cell btn
  | Tick => tick
  | Stop => stop
  | Resume => resume
  | SetSpeed v => set_speed v
  end.

(** A list of actions one after the other; an action that raises
    leaves the board it had reached, and the next one goes on from it. *)
Fixpoint perform_all (acts : list action) (b : Board) : Board :=
  match acts with
  | [] => b
  | a :: acts' => perform_all acts' (exec (perform a) b)
  end.

(** [k] clicks on the same button. *)
Fixpoint clicks (k : nat) (btn : button) (b : Board) : Board :=
  match k with
  | O => b
  | S k' => clicks k' btn (exec (toggle_cell (ByButton btn)) b)
  end.

(** * Vocabulary of the properties *)

(** ** Boards and positions *)

(** A statement that leaves the board as it found it, whether it
    returns or raises. *)
Definition readonly {A : Type} (m : M A) : Prop :=
  forall b, snd (m b) = b.

(** [cells] is the grid [_init_grid] made for the board's dimensions. *)
Definition grid_ok (b : Board) : Prop :=
  cells b = make_grid (nrows b) (ncols b).

(** [(row, col)] is a position of the grid. *)
Definition in_grid (b : Board) (row col : Z) : Prop :=
  0 <= row < nrows b /\ 0 <= col < ncols b.

(** ** Neighbours

    The positions the two loops of [get_neighbors_count] visit around
    [(row, col)]. *)
Definition window (b : Board) (row col : Z) : list button :=
  flat_map
    (fun y => map (fun x => (y, x))
                  (range (Z.max 0 (col - 1)) (Z.min (ncols b) (col + 2))))
    (range (Z.max 0 (row - 1)) (Z.min (nrows b) (row + 2))).

(** The positions whose button is looked up in [active_cells]: those
    that pass the test [(y, x) != (row, col)]. *)
Definition examined (b : Board) (row col : Z) : list button :=
  filter (fun p => negb (button_eqb p (row, col))) (window b row col).

(** How many of the positions [ps] have their button in [act]. *)
Definition alive_among (act ps : list button) : Z :=
  Z.of_nat (List.length (filter (fun p => contains p act) ps)).

(** ** One evolution step

    Every grid position, in the order the scan visits them. *)
Definition all_cells (b : Board) : list button :=
  flat_map (fun y => map (fun x => (y, x)) (range 0 (ncols b)))
           (range 0 (nrows b)).

(** The count [get_neighbors_count] reaches at [p] on the board [b]. *)
Definition neighbors (b : Board) (p : button) : Z :=
  alive_among (active_cells b) (examined b (fst p) (snd p)).

(** The test of line 176, which fills [cells_to_activate]. *)
Definition born (b : Board) (p : button) : bool :=
  negb (contains p (active_cells b)) && (neighbors b p =? 3).

(** The test of line 178, which fills [cells_to_deactivate]. *)
Definition dies (b : Board) (p : button) : bool :=
  contains p (active_cells b) &&
  negb ((neighbors b p =? 2) || (neighbors b p =? 3)).

(** [active_cells] after the activation loop over [births]. *)
Definition add_new (births act : list button) : list button :=
  fold_left (fun l x => if contains x l then l else l ++ [x]) births act.

(** [active_cells] after the deactivation loop over [deaths]. *)
Definition remove_all (deaths act : list button) : list button :=
  fold_left (fun l x => remove_first x l) deaths act.

(** What the loops of the batch update leave alone. *)
Definition same_config (b b' : Board) : Prop :=
  nrows b' = nrows b /\ ncols b' = ncols b /\
  active_colors b' = active_colors b /\ disabled_color b' = disabled_color b /\
  speed b' = speed b /\ cells b' = cells b /\
  _stopped b' = _stopped b /\ timers b' = timers b.

(** [active_cells] after one evolution step of the board [b]. *)
Definition next_alive (b : Board) : list button :=
  remove_all (filter (dies b) (all_cells b))
             (add_new (filter (born b) (all_cells b)) (active_cells b)).

(** The button [toggle_cell] works on, when the lookup does not raise. *)
Definition target_button (t : target) (b : Board) : option button :=
  match t with
  | ByButton btn => Some btn
  | ByCoord col row =>
      match fst (cell_at row col b) with
      | Ret btn => Some btn
      | Raise _ => None
      end
  end.

(** ** Example boards

    A 5 x 5 board after [place], nothing alive, paused. *)
Definition board5 : Board :=
  exec place (Board_init 5 5 default_active_colors "black"%string 20).

(** The horizontal blinker clicked onto [board5]: row 1, columns 1-3. *)
Definition blinker_paused : Board :=
  exec (toggle_cell (ByCoord 3 1))
    (exec (toggle_cell (ByCoord 2 1))
       (exec (toggle_cell (ByCoord 1 1)) board5)).

(** The same board with the simulation running. *)
Definition blinker_running : Board := set_stopped false blinker_paused.

(** A 1 x 1 board after [place]. *)
Definition board1 : Board :=
  exec place (Board_init 1 1 default_active_colors "black"%string 20).

(** ** Corners, edges and the interior of the grid *)

Definition corner (b : Board) (row col : Z) : Prop :=
  (row = 0 \/ row = nrows b - 1) /\ (col = 0 \/ col = ncols b - 1).

Definition edge (b : Board) (row col : Z) : Prop :=
  ((row = 0 \/ row = nrows b - 1) /\ 0 < col < ncols b - 1) \/
  (0 < row < nrows b - 1 /\ (col = 0 \/ col = ncols b - 1)).

Definition interior (b : Board) (row col : Z) : Prop :=
  0 < row < nrows b - 1 /\ 0 < col < ncols b - 1.

(** ** The blinker

    Two alive lists with the same buttons, in any order. *)
Definition same_cells (l1 l2 : list button) : Prop :=
  forall p, In p l1 <-> In p l2.

(** The two phases of the blinker on a 5 x 5 grid. *)
Definition horizontal : list button := [(1, 1); (1, 2); (1, 3)].

Definition vertical : list button := [(0, 2); (1, 2); (2, 2)].

(** A board that only carries the dimensions and an alive list. *)
Definition bare_board (nr nc : Z) (act : list button) : Board :=
  mkBoard nr nc [] EmptyString 0 [] act true (fun _ => EmptyString) [].

(** A placed, running 5 x 5 board with no button twice alive. *)
Definition running5 (b : Board) : Prop :=
  nrows b = 5 /\ ncols b = 5 /\ grid_ok b /\ active_colors b <> [] /\
  _stopped b = false /\ NoDup (active_cells b).

(** ** What the operations keep

    The configuration of a board: everything but the alive list, the
    button colours and the timers. *)
Definition setup (b : Board)
  : Z * Z * list color * color * Z * list (list button) * bool :=
  (nrows b, ncols b, active_colors b, disabled_color b, speed b, cells b,
   _stopped b).

(** A statement that keeps the property [P] of the board, whether it
    returns or raises. *)
Definition keeps {A : Type} (P : Board -> Prop) (m : M A) : Prop :=
  forall b, P b -> P (snd (m b)).

(** Every alive button shows one of the active colours. *)
Definition colors_ok (b : Board) : Prop :=
  forall p, In p (active_cells b) -> In (bg b p) (active_colors b).

(** Every dead button shows the disabled colour. *)
Definition dead_dark (b : Board) : Prop :=
  forall p, ~ In p (active_cells b) -> bg b p = disabled_color b.

(** The state of a board the program can be in after [place]. *)
Definition well_formed (b : Board) : Prop :=
  grid_ok b /\ active_colors b <> [] /\ NoDup (active_cells b) /\
  colors_ok b /\ dead_dark b.

(** All alive buttons are buttons of the grid. *)
Definition alive_in_grid (b : Board) : Prop :=
  forall p, In p (active_cells b) -> in_grid b (fst p) (snd p).

(** The symbol on the pause button tells whether the board runs. *)
Definition in_sync (p : ControllerPanel) : Prop :=
  symbols p = [pause_symbol; play_symbol] /\
  ((pause_button_text p = pause_symbol /\ _stopped (board p) = false) \/
   (pause_button_text p = play_symbol /\ _stopped (board p) = true)).

(** The 2 x 2 block with its upper left corner at [(r, c)]. *)
Definition block (r c : Z) : list button :=
  [(r, c); (r, c + 1); (r + 1, c); (r + 1, c + 1)].

(** * Properties *)

(** ** Buttons, membership and removal *)

Lemma button_eqb_eq (a b : button) : button_eqb a b = true <-> a = b.
Proof.
  destruct a as [a1 a2], b as [b1 b2]; unfold button_eqb; simpl.
  rewrite andb_true_iff, !Z.eqb_eq.
  split; [intros [-> ->]; reflexivity | intros H; inversion H; auto].
Qed.

Lemma button_eqb_refl (a : button) : button_eqb a a = true.
Proof. apply button_eqb_eq; reflexivity. Qed.

Lemma button_eqb_neq (a b : button) : button_eqb a b = false <-> a <> b.
Proof.
  rewrite <- button_eqb_eq. destruct (button_eqb a b); split; congruence.
Qed.

Lemma contains_In (x : button) (l : list button) :
  contains x l = true <-> In x l.
Proof.
  unfold contains. rewrite existsb_exists. split.
  - intros [y [Hy E]]. apply button_eqb_eq in E. subst; assumption.
  - intros H. exists x. split; [assumption | apply button_eqb_refl].
Qed.

Lemma contains_not_In (x : button) (l : list button) :
  contains x l = false <-> ~ In x l.
Proof.
  rewrite <- contains_In. destruct (contains x l); split; congruence.
Qed.

Lemma remove_first_not_In (x : button) (l : list button) :
  ~ In x l -> remove_first x l = l.
Proof.
  induction l as [|y l IH]; simpl; intros H; [reflexivity|].
  destruct (button_eqb x y) eqn:E.
  - apply button_eqb_eq in E. subst. exfalso; apply H; left; reflexivity.
  - f_equal. apply IH. intros K; apply H; right; assumption.
Qed.

Lemma In_remove_first (x y : button) (l : list button) :
  In y (remove_first x l) -> In y l.
Proof.
  induction l as [|z l IH]; simpl; [tauto|].
  destruct (button_eqb x z); simpl; intuition.
Qed.

Lemma NoDup_remove_first (x : button) (l : list button) :
  NoDup l -> NoDup (remove_first x l).
Proof.
  induction 1 as [|z l Hz Hl IH]; simpl; [constructor|].
  destruct (button_eqb x z); [assumption|].
  constructor; [|assumption].
  intros K; apply Hz. eapply In_remove_first; eassumption.
Qed.

Lemma In_remove_first_NoDup (x y : button) (l : list button) :
  NoDup l -> (In y (remove_first x l) <-> In y l /\ y <> x).
Proof.
  induction 1 as [|z l Hz Hl IH]; simpl; [tauto|].
  destruct (button_eqb x z) eqn:E.
  - apply button_eqb_eq in E; subst z. split.
    + intros H. split; [right; assumption|]. intros ->; contradiction.
    + intros [[H|H] N]; [congruence | assumption].
  - apply button_eqb_neq in E. simpl. rewrite IH. split.
    + intros [H|[H N]]; [subst; split; [left; reflexivity | congruence]|].
      split; [right; assumption | assumption].
    + intros [[H|H] N]; [left; assumption | right; split; assumption].
Qed.

(** ** Ranges and indexing *)

Lemma range_length (lo hi : Z) :
  List.length (range lo hi) = Z.to_nat (hi - lo).
Proof. unfold range. rewrite length_map, length_seq. reflexivity. Qed.

Lemma In_range (lo hi k : Z) : In k (range lo hi) <-> lo <= k < hi.
Proof.
  unfold range. rewrite in_map_iff. split.
  - intros [n [<- Hn]]. apply in_seq in Hn. lia.
  - intros H. exists (Z.to_nat (k - lo)). split; [lia|].
    apply in_seq. lia.
Qed.

Lemma NoDup_range (lo hi : Z) : NoDup (range lo hi).
Proof.
  unfold range. generalize (seq_NoDup (Z.to_nat (hi - lo)) 0).
  induction 1 as [|n l Hn Hl IH]; simpl; constructor; [|assumption].
  rewrite in_map_iff. intros [m [E Hm]].
  assert (m = n) by lia. subst; contradiction.
Qed.

Lemma nth_error_range (lo hi : Z) (n : nat) :
  (n < Z.to_nat (hi - lo))%nat ->
  nth_error (range lo hi) n = Some (lo + Z.of_nat n).
Proof.
  intros H. unfold range.
  rewrite nth_error_map, nth_error_seq.
  destruct (Nat.ltb_spec n (Z.to_nat (hi - lo))); [reflexivity | lia].
Qed.

Lemma getitem_in_bounds {A : Type} (l : list A) (i : Z) :
  0 <= i -> getitem l i = nth_error l (Z.to_nat i).
Proof.
  intros H. unfold getitem.
  destruct (Z.leb_spec 0 i); [reflexivity | lia].
Qed.

Lemma getitem_wraps {A : Type} (l : list A) (i : Z) :
  - Z.of_nat (List.length l) <= i < 0 ->
  getitem l i = getitem l (Z.of_nat (List.length l) + i).
Proof.
  intros H. unfold getitem.
  destruct (Z.leb_spec 0 i); [lia|].
  destruct (Z.leb_spec (- Z.of_nat (List.length l)) i); [|lia].
  destruct (Z.leb_spec 0 (Z.of_nat (List.length l) + i)); [reflexivity | lia].
Qed.

Lemma getitem_outside {A : Type} (l : list A) (i : Z) :
  i < - Z.of_nat (List.length l) \/ Z.of_nat (List.length l) <= i ->
  getitem l i = None.
Proof.
  intros H. unfold getitem.
  destruct (Z.leb_spec 0 i).
  - apply nth_error_None. lia.
  - destruct (Z.leb_spec (- Z.of_nat (List.length l)) i); [lia | reflexivity].
Qed.

Lemma make_grid_length (nr nc : Z) :
  Z.of_nat (List.length (make_grid nr nc)) = Z.max 0 nr.
Proof.
  unfold make_grid. rewrite length_map, range_length. lia.
Qed.

Lemma getitem_make_grid (nr nc y : Z) :
  0 <= y < nr ->
  getitem (make_grid nr nc) y = Some (map (fun x => (y, x)) (range 0 nc)).
Proof.
  intros H. rewrite getitem_in_bounds by lia.
  unfold make_grid. rewrite nth_error_map, nth_error_range by lia.
  simpl. rewrite Z2Nat.id by lia. reflexivity.
Qed.

Lemma getitem_grid_row (nc y x : Z) :
  0 <= x < nc ->
  getitem (map (fun x => (y, x)) (range 0 nc)) x = Some (y, x).
Proof.
  intros H. rewrite getitem_in_bounds by lia.
  rewrite nth_error_map, nth_error_range by lia.
  simpl. rewrite Z2Nat.id by lia. reflexivity.
Qed.

Lemma grid_row_length (nc y : Z) :
  Z.of_nat (List.length (map (fun x : Z => (y, x)) (range 0 nc))) = Z.max 0 nc.
Proof. rewrite length_map, range_length. lia. Qed.

(** ** Statements that only read the board *)

Lemma readonly_ret {A : Type} (a : A) : readonly (ret a).
Proof. intros b; reflexivity. Qed.

Lemma readonly_raise {A : Type} (e : exn) : readonly (@raise A e).
Proof. intros b; reflexivity. Qed.

Lemma readonly_gets {A : Type} (f : Board -> A) : readonly (gets f).
Proof. intros b; reflexivity. Qed.

Lemma readonly_from_option {A : Type} (e : exn) (o : option A) :
  readonly (from_option e o).
Proof. destruct o; intros b; reflexivity. Qed.

Lemma readonly_bind {A B : Type} (m : M A) (k : A -> M B) :
  readonly m -> (forall a, readonly (k a)) -> readonly (bind m k).
Proof.
  intros Hm Hk b. unfold bind. specialize (Hm b).
  destruct (m b) as [[a|e] b']; simpl in *; subst; [apply Hk | reflexivity].
Qed.

Lemma readonly_for_each {X A : Type} (xs : list X) (body : X -> A -> M A) :
  (forall x a, readonly (body x a)) ->
  forall acc, readonly (for_each xs body acc).
Proof.
  intros Hb. induction xs as [|x xs IH]; intros acc; simpl.
  - apply readonly_ret.
  - apply readonly_bind; [apply Hb | intros a; apply IH].
Qed.

Create HintDb readonly.

#[local] Hint Resolve readonly_ret readonly_raise readonly_gets
  readonly_from_option : readonly.

Ltac readonly_tac :=
  repeat first
    [ solve [auto with readonly]
    | progress cbv beta zeta
    | apply readonly_bind; [| intros ?]
    | apply readonly_for_each; intros ? ?
    | match goal with
      | |- readonly (if ?c then _ else _) => destruct c
      end ].

Lemma readonly_cell_at (row col : Z) : readonly (cell_at row col).
Proof. unfold cell_at. readonly_tac. Qed.

#[local] Hint Resolve readonly_cell_at : readonly.

Lemma readonly_count_step (row col y x count : Z) :
  readonly (count_step row col y x count).
Proof. unfold count_step. readonly_tac. Qed.

#[local] Hint Resolve readonly_count_step : readonly.

Lemma readonly_get_neighbors_count (row col : Z) :
  readonly (get_neighbors_count row col).
Proof. unfold get_neighbors_count. readonly_tac. Qed.

#[local] Hint Resolve readonly_get_neighbors_count : readonly.

Lemma readonly_scan_step (row col : Z) (acc : list button * list button) :
  readonly (scan_step row col acc).
Proof. unfold scan_step. readonly_tac. Qed.

#[local] Hint Resolve readonly_scan_step : readonly.

Lemma readonly_scan : readonly scan.
Proof. unfold scan. readonly_tac. Qed.

(** A loop whose body computes a pure function of the loop variables. *)
Lemma for_each_pure {X A : Type} (xs : list X) (body : X -> A -> M A)
    (g : A -> X -> A) (b : Board) :
  (forall x a, In x xs -> body x a b = (Ret (g a x), b)) ->
  forall acc, for_each xs body acc b = (Ret (fold_left g xs acc), b).
Proof.
  induction xs as [|x xs IH]; intros Hb acc; simpl; [reflexivity|].
  unfold bind. rewrite Hb by (left; reflexivity).
  apply IH. intros y a Hy. apply Hb. right; assumption.
Qed.

(** ** The grid after [place] *)

Lemma place_grid_ok (b : Board) : grid_ok (exec place b).
Proof. reflexivity. Qed.

Lemma cell_at_in_grid (b : Board) (row col : Z) :
  grid_ok b -> in_grid b row col ->
  cell_at row col b = (Ret (row, col), b).
Proof.
  intros G [Hr Hc]. unfold cell_at, bind, gets. rewrite G.
  rewrite getitem_make_grid by assumption. simpl.
  rewrite getitem_grid_row by assumption. reflexivity.
Qed.

Lemma cell_at_wraps (b : Board) (row col : Z) :
  grid_ok b -> - nrows b <= row < 0 -> - ncols b <= col < ncols b ->
  cell_at row col b =
  (Ret (nrows b + row, if col <? 0 then ncols b + col else col), b).
Proof.
  intros G Hr Hc. unfold cell_at, bind, gets. rewrite G.
  rewrite getitem_wraps by (rewrite make_grid_length; lia).
  rewrite make_grid_length, Z.max_r by lia.
  rewrite getitem_make_grid by lia. simpl.
  destruct (Z.ltb_spec col 0).
  - rewrite getitem_wraps by (rewrite grid_row_length; lia).
    rewrite grid_row_length, Z.max_r by lia.
    rewrite getitem_grid_row by lia. reflexivity.
  - rewrite getitem_grid_row by lia. reflexivity.
Qed.

Lemma cell_at_outside (b : Board) (row col : Z) :
  grid_ok b ->
  row < - nrows b \/ nrows b <= row \/ col < - ncols b \/ ncols b <= col ->
  cell_at row col b = (Raise IndexError, b).
Proof.
  intros G H. unfold cell_at, bind, gets. rewrite G.
  destruct (Z.ltb_spec row (- Z.max 0 (nrows b))) as [L|L];
    [rewrite getitem_outside by (rewrite make_grid_length; lia); reflexivity|].
  destruct (Z.leb_spec (Z.max 0 (nrows b)) row) as [U|U];
    [rewrite getitem_outside by (rewrite make_grid_length; lia); reflexivity|].
  assert (Hcol : col < - Z.max 0 (ncols b) \/ Z.max 0 (ncols b) <= col) by lia.
  destruct (Z.ltb_spec row 0) as [N|N].
  - rewrite getitem_wraps by (rewrite make_grid_length; lia).
    rewrite make_grid_length.
    rewrite getitem_make_grid by lia. simpl.
    rewrite getitem_outside by (rewrite grid_row_length; lia). reflexivity.
  - rewrite getitem_make_grid by lia. simpl.
    rewrite getitem_outside by (rewrite grid_row_length; lia). reflexivity.
Qed.

(** ** What [get_neighbors_count] computes *)

Lemma alive_among_app (act ps qs : list button) :
  alive_among act (ps ++ qs) = alive_among act ps + alive_among act qs.
Proof.
  unfold alive_among. rewrite filter_app, length_app. lia.
Qed.

Lemma alive_among_cons (act : list button) (p : button) (ps : list button) :
  alive_among act (p :: ps) =
  (if contains p act then 1 else 0) + alive_among act ps.
Proof.
  unfold alive_among. cbn [filter].
  destruct (contains p act); cbn [List.length]; lia.
Qed.

Lemma alive_among_bounds (act ps : list button) :
  0 <= alive_among act ps <= Z.of_nat (List.length ps).
Proof.
  unfold alive_among. pose proof (filter_length_le (fun p => contains p act) ps).
  lia.
Qed.

Lemma count_row (b : Board) (row col y : Z) (xs : list Z) :
  grid_ok b -> 0 <= y < nrows b ->
  (forall x, In x xs -> 0 <= x < ncols b) ->
  forall count,
    for_each xs (fun x count => count_step row col y x count) count b =
    (Ret (count + alive_among (active_cells b)
                    (filter (fun p => negb (button_eqb p (row, col)))
                            (map (fun x => (y, x)) xs))), b).
Proof.
  intros G Hy. induction xs as [|x xs IH]; intros Hxs count; simpl.
  - unfold ret, alive_among. simpl. f_equal. f_equal. lia.
  - unfold bind at 1. unfold count_step at 1.
    change ((y =? row) && (x =? col)) with (button_eqb (y, x) (row, col)).
    assert (Hx : in_grid b y x) by (split; [assumption | apply Hxs; left; reflexivity]).
    assert (Hxs' : forall x0, In x0 xs -> 0 <= x0 < ncols b)
      by (intros x0 K; apply Hxs; right; assumption).
    destruct (negb (button_eqb (y, x) (row, col))).
    + unfold bind at 1. rewrite (cell_at_in_grid b y x G Hx).
      unfold bind at 1, gets at 1.
      rewrite alive_among_cons.
      destruct (contains (y, x) (active_cells b)); unfold ret at 1;
        rewrite IH by assumption; f_equal; f_equal; lia.
    + unfold ret at 1. apply IH. assumption.
Qed.

Lemma get_neighbors_count_eq (b : Board) (row col : Z) :
  grid_ok b ->
  get_neighbors_count row col b =
  (Ret (alive_among (active_cells b) (examined b row col)), b).
Proof.
  intros G. unfold get_neighbors_count, bind at 1 2, gets at 1 2.
  unfold examined, window.
  set (xs := range (Z.max 0 (col - 1)) (Z.min (ncols b) (col + 2))).
  assert (Hxs : forall x, In x xs -> 0 <= x < ncols b)
    by (intros x Hx; apply In_range in Hx; lia).
  assert (Hys : forall y, In y (range (Z.max 0 (row - 1)) (Z.min (nrows b) (row + 2))) ->
                          0 <= y < nrows b)
    by (intros y Hy; apply In_range in Hy; lia).
  revert Hys. generalize (range (Z.max 0 (row - 1)) (Z.min (nrows b) (row + 2))).
  intros ys Hys.
  enough (H : forall count,
    for_each ys (fun y count => for_each xs
        (fun x count => count_step row col y x count) count) count b =
    (Ret (count + alive_among (active_cells b)
            (filter (fun p => negb (button_eqb p (row, col)))
               (flat_map (fun y => map (fun x => (y, x)) xs) ys))), b))
    by (rewrite H; f_equal).
  induction ys as [|y ys IH]; intros count; simpl.
  - unfold ret, alive_among. simpl. f_equal. f_equal. lia.
  - unfold bind at 1.
    rewrite (count_row b row col y xs G) by (auto; apply Hys; left; reflexivity).
    rewrite IH by (intros y0 K; apply Hys; right; assumption).
    rewrite filter_app, alive_among_app, Z.add_assoc. reflexivity.
Qed.

(** The examined positions are the grid positions at distance one. *)
Lemma In_window (b : Board) (row col : Z) (p : button) :
  In p (window b row col) <->
  (0 <= fst p < nrows b /\ 0 <= snd p < ncols b) /\
  row - 1 <= fst p <= row + 1 /\ col - 1 <= snd p <= col + 1.
Proof.
  unfold window. rewrite in_flat_map. split.
  - intros [y [Hy Hp]]. apply in_map_iff in Hp. destruct Hp as [x [<- Hx]].
    apply In_range in Hy. apply In_range in Hx. simpl. lia.
  - intros H. destruct p as [y x]. simpl in H. exists y. split.
    + apply In_range. lia.
    + apply in_map. apply In_range. lia.
Qed.

Lemma In_examined (b : Board) (row col : Z) (p : button) :
  In p (examined b row col) <->
  (0 <= fst p < nrows b /\ 0 <= snd p < ncols b) /\
  (row - 1 <= fst p <= row + 1 /\ col - 1 <= snd p <= col + 1) /\
  p <> (row, col).
Proof.
  unfold examined. rewrite filter_In, In_window, negb_true_iff, button_eqb_neq.
  tauto.
Qed.

Lemma NoDup_pairs (ys xs : list Z) :
  NoDup ys -> NoDup xs ->
  NoDup (flat_map (fun y => map (fun x => (y, x)) xs) ys).
Proof.
  intros Hys Hxs. induction Hys as [|y ys Hy Hys IH]; simpl; [constructor|].
  apply NoDup_app; [| assumption |].
  - clear -Hxs. induction Hxs as [|x xs Hx Hxs IH]; simpl; constructor; [|assumption].
    rewrite in_map_iff. intros [x' [E K]]. inversion E; subst; contradiction.
  - intros p Hp Hq. apply in_map_iff in Hp. destruct Hp as [x [<- Hx]].
    apply in_flat_map in Hq. destruct Hq as [y' [Hy' Hq]].
    apply in_map_iff in Hq. destruct Hq as [x' [E Hx']].
    inversion E; subst; contradiction.
Qed.

Lemma length_pairs (ys xs : list Z) :
  List.length (flat_map (fun y => map (fun x => (y, x)) xs) ys) =
  (List.length ys * List.length xs)%nat.
Proof.
  induction ys as [|y ys IH]; simpl; [reflexivity|].
  rewrite length_app, length_map, IH. reflexivity.
Qed.

Lemma NoDup_window (b : Board) (row col : Z) : NoDup (window b row col).
Proof. apply NoDup_pairs; apply NoDup_range. Qed.

Lemma NoDup_examined (b : Board) (row col : Z) : NoDup (examined b row col).
Proof. apply NoDup_filter, NoDup_window. Qed.

Lemma length_filter_out (x : button) (l : list button) :
  NoDup l -> In x l ->
  S (List.length (filter (fun p => negb (button_eqb p x)) l)) = List.length l.
Proof.
  induction 1 as [|y l Hy Hl IH]; simpl; [tauto|].
  intros [->|Hx].
  - rewrite button_eqb_refl. simpl. f_equal.
    clear IH Hl. induction l as [|z l IH]; simpl; [reflexivity|].
    destruct (button_eqb z x) eqn:E.
    + apply button_eqb_eq in E. subst. exfalso. apply Hy. left; reflexivity.
    + simpl. f_equal. apply IH. intros K. apply Hy. right; assumption.
  - destruct (button_eqb y x) eqn:E.
    + apply button_eqb_eq in E. subst. contradiction.
    + simpl. f_equal. apply IH. assumption.
Qed.

(** The number of examined positions: the window's height times its
    width, less the position itself. *)
Lemma examined_length (b : Board) (row col : Z) :
  in_grid b row col ->
  Z.of_nat (List.length (examined b row col)) =
  (Z.min (nrows b) (row + 2) - Z.max 0 (row - 1)) *
  (Z.min (ncols b) (col + 2) - Z.max 0 (col - 1)) - 1.
Proof.
  intros [Hr Hc].
  assert (Hin : In (row, col) (window b row col))
    by (apply In_window; simpl; lia).
  pose proof (length_filter_out (row, col) (window b row col)
                (NoDup_window b row col) Hin) as L.
  unfold examined. unfold window in L at 2.
  rewrite length_pairs, !range_length in L.
  apply (f_equal Z.of_nat) in L. rewrite Nat2Z.inj_succ, Nat2Z.inj_mul in L.
  rewrite !Z2Nat.id in L by lia. lia.
Qed.

(** ** What the scan of [update_cells] collects *)

Lemma In_all_cells (b : Board) (p : button) :
  In p (all_cells b) <-> in_grid b (fst p) (snd p).
Proof.
  unfold all_cells, in_grid. rewrite in_flat_map. split.
  - intros [y [Hy Hp]]. apply in_map_iff in Hp. destruct Hp as [x [<- Hx]].
    apply In_range in Hy. apply In_range in Hx. simpl. lia.
  - intros H. destruct p as [y x]. simpl in H. exists y. split.
    + apply In_range. lia.
    + apply in_map. apply In_range. lia.
Qed.

Lemma NoDup_all_cells (b : Board) : NoDup (all_cells b).
Proof. apply NoDup_pairs; apply NoDup_range. Qed.

Lemma scan_step_eq (b : Board) (row col : Z) (acc : list button * list button) :
  grid_ok b -> in_grid b row col ->
  scan_step row col acc b =
  (Ret (if born b (row, col) then (fst acc ++ [(row, col)], snd acc)
        else if dies b (row, col) then (fst acc, snd acc ++ [(row, col)])
        else acc), b).
Proof.
  intros G H. unfold scan_step, bind at 1.
  rewrite (get_neighbors_count_eq b row col G).
  unfold bind at 1. rewrite (cell_at_in_grid b row col G H).
  unfold bind at 1, gets at 1. unfold born, dies, neighbors. simpl fst. simpl snd.
  destruct (negb (contains (row, col) (active_cells b)) &&
            (alive_among (active_cells b) (examined b row col) =? 3));
    [reflexivity|].
  destruct (contains (row, col) (active_cells b) &&
            negb ((alive_among (active_cells b) (examined b row col) =? 2) ||
                  (alive_among (active_cells b) (examined b row col) =? 3)));
    reflexivity.
Qed.

Lemma born_not_dies (b : Board) (p : button) : born b p = true -> dies b p = false.
Proof.
  unfold born, dies. destruct (contains p (active_cells b)); simpl; congruence.
Qed.

Lemma scan_row (b : Board) (row : Z) (xs : list Z) :
  grid_ok b -> 0 <= row < nrows b ->
  (forall x, In x xs -> 0 <= x < ncols b) ->
  forall acc,
    for_each xs (fun col acc => scan_step row col acc) acc b =
    (Ret (fst acc ++ filter (born b) (map (fun x => (row, x)) xs),
          snd acc ++ filter (dies b) (map (fun x => (row, x)) xs)), b).
Proof.
  intros G Hr. induction xs as [|x xs IH]; intros Hxs acc; simpl.
  - rewrite !app_nil_r. destruct acc; reflexivity.
  - unfold bind at 1.
    rewrite (scan_step_eq b row x _ G)
      by (split; [assumption | apply Hxs; left; reflexivity]).
    rewrite IH by (intros x0 K; apply Hxs; right; assumption).
    destruct (born b (row, x)) eqn:Eb.
    + rewrite (born_not_dies _ _ Eb). simpl. rewrite <- app_assoc. reflexivity.
    + destruct (dies b (row, x)); simpl; rewrite <- ?app_assoc; reflexivity.
Qed.

Lemma scan_eq (b : Board) :
  grid_ok b ->
  scan b = (Ret (filter (born b) (all_cells b), filter (dies b) (all_cells b)), b).
Proof.
  intros G. unfold scan, bind at 1 2, gets at 1 2. unfold all_cells.
  assert (Hxs : forall x, In x (range 0 (ncols b)) -> 0 <= x < ncols b)
    by (intros x Hx; apply In_range in Hx; lia).
  assert (Hys : forall y, In y (range 0 (nrows b)) -> 0 <= y < nrows b)
    by (intros y Hy; apply In_range in Hy; lia).
  revert Hxs Hys. generalize (range 0 (ncols b)) (range 0 (nrows b)).
  intros xs ys Hxs Hys.
  enough (H : forall acc,
    for_each ys (fun row acc => for_each xs
        (fun col acc => scan_step row col acc) acc) acc b =
    (Ret (fst acc ++ filter (born b) (flat_map (fun y => map (fun x => (y, x)) xs) ys),
          snd acc ++ filter (dies b) (flat_map (fun y => map (fun x => (y, x)) xs) ys)),
     b))
    by (rewrite H; reflexivity).
  induction ys as [|y ys IH]; intros acc; simpl.
  - rewrite !app_nil_r. destruct acc; reflexivity.
  - unfold bind at 1.
    rewrite (scan_row b y xs G) by (auto; apply Hys; left; reflexivity).
    rewrite IH by (intros y0 K; apply Hys; right; assumption).
    simpl. rewrite !filter_app, !app_assoc. reflexivity.
Qed.

(** ** The batch update *)

Lemma In_add_new (births : list button) :
  forall act p, In p (add_new births act) <-> In p act \/ In p births.
Proof.
  unfold add_new. induction births as [|x births IH]; intros act p; simpl.
  - tauto.
  - rewrite IH. destruct (contains x act) eqn:E.
    + apply contains_In in E. split; [tauto|].
      intros [H|[H|H]]; auto. subst; auto.
    + rewrite in_app_iff. simpl. tauto.
Qed.

Lemma NoDup_add_new (births : list button) :
  forall act, NoDup act -> NoDup (add_new births act).
Proof.
  unfold add_new. induction births as [|x births IH]; intros act H; simpl.
  - assumption.
  - apply IH. destruct (contains x act) eqn:E; [assumption|].
    apply contains_not_In in E. apply NoDup_app; [assumption | | ].
    + constructor; [simpl; tauto | constructor].
    + intros y Hy [<-|[]]. contradiction.
Qed.

Lemma NoDup_remove_all (deaths : list button) :
  forall act, NoDup act -> NoDup (remove_all deaths act).
Proof.
  unfold remove_all. induction deaths as [|x deaths IH]; intros act H; simpl.
  - assumption.
  - apply IH. apply NoDup_remove_first. assumption.
Qed.

Lemma In_remove_all (deaths : list button) :
  forall act p, NoDup act ->
    (In p (remove_all deaths act) <-> In p act /\ ~ In p deaths).
Proof.
  unfold remove_all. induction deaths as [|x deaths IH]; intros act p H; simpl.
  - tauto.
  - rewrite IH by (apply NoDup_remove_first; assumption).
    rewrite In_remove_first_NoDup by assumption.
    split.
    + intros [[H1 H2] H3]. split; [assumption|]. intros [K|K]; [congruence | tauto].
    + intros [H1 H2]. split; [split; [assumption|] |]; intros K; apply H2; auto.
Qed.

Lemma same_config_refl (b : Board) : same_config b b.
Proof. unfold same_config. tauto. Qed.

Lemma same_config_trans (b1 b2 b3 : Board) :
  same_config b1 b2 -> same_config b2 b3 -> same_config b1 b3.
Proof. unfold same_config. intuition congruence. Qed.

Lemma getitem_first {A : Type} (l : list A) :
  l <> [] -> exists a, getitem l 0 = Some a.
Proof. destruct l as [|a l]; [congruence | intros _; exists a; reflexivity]. Qed.

Lemma activate_loop (births : list button) :
  forall b, active_colors b <> [] ->
    exists b', for_each births activate_batch tt b = (Ret tt, b') /\
               active_cells b' = add_new births (active_cells b) /\
               same_config b b'.
Proof.
  induction births as [|x births IH]; intros b Hc.
  - exists b. repeat split; reflexivity.
  - destruct (getitem_first _ Hc) as [c0 Hc0].
    cbn [for_each add_new fold_left].
    unfold bind at 1. unfold activate_batch at 1.
    unfold bind, gets, modify, configure_bg. cbn beta iota.
    destruct (contains x (active_cells b)) eqn:E; cbn -[getitem].
    + apply IH. assumption.
    + rewrite Hc0. cbn.
      match goal with
      | |- context [for_each births activate_batch tt ?b1] =>
          destruct (IH b1 Hc) as [b' [R [A S]]]
      end.
      exists b'. split; [exact R|]. split; [exact A|].
      eapply same_config_trans; [|exact S]. unfold same_config. simpl. tauto.
Qed.

Lemma deactivate_loop (deaths : list button) :
  forall b,
    exists b', for_each deaths (fun btn _ => deactivate_cell btn) tt b = (Ret tt, b') /\
               active_cells b' = remove_all deaths (active_cells b) /\
               same_config b b'.
Proof.
  induction deaths as [|x deaths IH]; intros b.
  - exists b. repeat split; reflexivity.
  - cbn [for_each remove_all fold_left].
    unfold bind at 1. unfold deactivate_cell at 1.
    unfold bind, gets, modify, configure_bg. cbn beta iota.
    destruct (contains x (active_cells b)) eqn:E; cbn.
    + match goal with
      | |- context [for_each deaths _ tt ?b1] =>
          destruct (IH b1) as [b' [R [A S]]]
      end.
      exists b'. split; [exact R|]. split; [exact A|].
      eapply same_config_trans; [|exact S]. unfold same_config. simpl. tauto.
    + apply contains_not_In in E. rewrite (remove_first_not_In _ _ E).
      match goal with
      | |- context [for_each deaths _ tt ?b1] =>
          destruct (IH b1) as [b' [R [A S]]]
      end.
      exists b'. split; [exact R|]. split; [exact A|].
      eapply same_config_trans; [|exact S]. unfold same_config. simpl. tauto.
Qed.

(** ** One call of [update_cells] *)

Lemma update_cells_stopped (b : Board) :
  _stopped b = true -> update_cells b = (Ret tt, b).
Proof.
  intros H. unfold update_cells, bind, gets. rewrite H. reflexivity.
Qed.

Lemma update_cells_running (b : Board) :
  grid_ok b -> active_colors b <> [] -> _stopped b = false ->
  exists b',
    update_cells b = (Ret tt, b') /\
    active_cells b' = next_alive b /\
    timers b' = timers b ++ [delay_of (speed b)] /\
    same_config b (set_timers (timers b) b').
Proof.
  intros G Hc Hs. unfold update_cells.
  unfold bind at 1, gets at 1. rewrite Hs.
  unfold bind at 1. rewrite (scan_eq b G). cbn [fst snd].
  destruct (activate_loop (filter (born b) (all_cells b)) b Hc) as [b1 [R1 [A1 S1]]].
  unfold bind at 1. rewrite R1.
  destruct (deactivate_loop (filter (dies b) (all_cells b)) b1) as [b2 [R2 [A2 S2]]].
  unfold bind at 1. rewrite R2.
  unfold bind, gets, after, modify.
  eexists. split; [reflexivity|].
  pose proof (same_config_trans _ _ _ S1 S2) as S.
  unfold same_config in S. destruct S as (? & ? & ? & ? & Hsp & ? & ? & Ht).
  cbn. repeat split; try assumption.
  - rewrite A2, A1. reflexivity.
  - rewrite Ht, Hsp. reflexivity.
Qed.

Lemma In_next_alive (b : Board) (p : button) :
  NoDup (active_cells b) ->
  (In p (next_alive b) <->
   (In p (active_cells b) \/ (In p (all_cells b) /\ born b p = true)) /\
   ~ (In p (all_cells b) /\ dies b p = true)).
Proof.
  intros N. unfold next_alive.
  rewrite In_remove_all by (apply NoDup_add_new; assumption).
  rewrite In_add_new, !filter_In. tauto.
Qed.

Lemma NoDup_next_alive (b : Board) :
  NoDup (active_cells b) -> NoDup (next_alive b).
Proof.
  intros N. apply NoDup_remove_all, NoDup_add_new. assumption.
Qed.

(** ** [toggle_cell] and [deactivate_cell] on [active_cells] *)

Lemma toggle_button_active (btn : button) (b : Board) :
  active_cells (exec (toggle_button btn) b) =
  (if contains btn (active_cells b) then active_cells b
   else active_cells b ++ [btn]) /\
  cells (exec (toggle_button btn) b) = cells b.
Proof.
  unfold exec, toggle_button.
  unfold bind, gets, from_option, configure_bg, modify, ret, raise.
  cbn beta iota.
  destruct (contains btn (active_cells b)).
  - destruct (index_of (bg b btn) (active_colors b)); [|split; reflexivity].
    destruct (Z.of_nat (List.length (active_colors b)) =? 0);
      [split; reflexivity|].
    destruct (getitem (active_colors b) _); split; reflexivity.
  - cbn -[getitem].
    destruct (getitem (active_colors b) 0); split; reflexivity.
Qed.

Lemma toggle_cell_active (t : target) (b : Board) :
  active_cells (exec (toggle_cell t) b) =
  match target_button t b with
  | Some btn =>
      if contains btn (active_cells b) then active_cells b
      else active_cells b ++ [btn]
  | None => active_cells b
  end /\
  cells (exec (toggle_cell t) b) = cells b.
Proof.
  destruct t as [btn|col row].
  - change (exec (toggle_cell (ByButton btn)) b) with (exec (toggle_button btn) b).
    apply toggle_button_active.
  - unfold target_button.
    change (exec (toggle_cell (ByCoord col row)) b)
      with (snd (let (r, b') := cell_at row col b in
                 match r with
                 | Ret btn => toggle_button btn b'
                 | Raise e => (Raise e, b')
                 end)).
    pose proof (readonly_cell_at row col b) as R.
    destruct (cell_at row col b) as [r b0]. simpl in R. subst b0.
    simpl fst. destruct r as [btn|e].
    + apply toggle_button_active.
    + split; reflexivity.
Qed.

Lemma cell_at_cells (row col : Z) (b b' : Board) :
  cells b' = cells b -> fst (cell_at row col b') = fst (cell_at row col b).
Proof.
  intros H. unfold cell_at, bind, gets. rewrite H.
  destruct (getitem (cells b) row) as [r|]; [|reflexivity].
  simpl. destruct (getitem r col); reflexivity.
Qed.

Lemma target_button_cells (t : target) (b b' : Board) :
  cells b' = cells b -> target_button t b' = target_button t b.
Proof.
  intros H. destruct t as [btn|col row]; simpl; [reflexivity|].
  rewrite (cell_at_cells row col b b' H). reflexivity.
Qed.

Lemma deactivate_cell_active (btn : button) (b : Board) :
  deactivate_cell btn b =
  (Ret tt, set_bg (fun x => if button_eqb x btn then disabled_color b else bg b x)
             (set_active_cells (remove_first btn (active_cells b)) b)).
Proof.
  unfold deactivate_cell, bind, gets, modify, configure_bg, ret.
  destruct (contains btn (active_cells b)) eqn:E; cbn.
  - reflexivity.
  - apply contains_not_In in E. rewrite (remove_first_not_In _ _ E).
    destruct b; reflexivity.
Qed.

Lemma activate_loop_NoDup (births : list button) :
  forall b, NoDup (active_cells b) ->
    NoDup (active_cells (snd (for_each births activate_batch tt b))).
Proof.
  induction births as [|x births IH]; intros b N; [exact N|].
  cbn [for_each]. unfold bind at 1. unfold activate_batch at 1.
  unfold bind, gets, modify, configure_bg, from_option. cbn beta iota.
  destruct (contains x (active_cells b)) eqn:E; cbn -[getitem].
  - apply IH. assumption.
  - assert (N' : NoDup (active_cells b ++ [x])).
    { apply contains_not_In in E. apply NoDup_app; [assumption | |].
      - constructor; [simpl; tauto | constructor].
      - intros y Hy [<-|[]]. contradiction. }
    destruct (getitem (active_colors b) 0); cbn.
    + apply IH. exact N'.
    + exact N'.
Qed.

Lemma update_cells_NoDup (b : Board) :
  NoDup (active_cells b) -> NoDup (active_cells (exec update_cells b)).
Proof.
  intros N. unfold exec, update_cells. unfold bind at 1, gets at 1.
  destruct (_stopped b); [exact N|].
  unfold bind at 1. pose proof (readonly_scan b) as R.
  destruct (scan b) as [[lists|e] b0]; simpl in R; subst b0; [|exact N].
  unfold bind at 1.
  pose proof (activate_loop_NoDup (fst lists) b N) as N1.
  destruct (for_each (fst lists) activate_batch tt b) as [[[]|e] b1];
    simpl in N1; [|exact N1].
  unfold bind at 1.
  destruct (deactivate_loop (snd lists) b1) as [b2 [R2 [A2 _]]].
  rewrite R2. unfold bind, gets, after, modify. cbn.
  rewrite A2. apply NoDup_remove_all. exact N1.
Qed.

(** ** The example boards *)

Lemma board5_grid_ok : grid_ok board5.
Proof. reflexivity. Qed.

Lemma blinker_running_grid_ok : grid_ok blinker_running.
Proof. reflexivity. Qed.

Lemma blinker_running_colors : active_colors blinker_running <> [].
Proof. discriminate. Qed.

Lemma blinker_running_cells :
  active_cells blinker_running = [(1, 1); (1, 2); (1, 3)].
Proof. reflexivity. Qed.

Lemma blinker_running_NoDup : NoDup (active_cells blinker_running).
Proof.
  rewrite blinker_running_cells.
  repeat constructor; simpl; intuition congruence.
Qed.

(** * The claims *)

(** ** Pause and resume *)

(** C2: after [stop], a fired timer callback ([tick]) returns without
    changing the board and without scheduling another one, however many
    of them fire; [resume] then runs [update_cells] at once on the board
    as it stood at [stop], with the flag cleared, and on a placed board
    that call is one evolution step of the alive list of that moment. *)
Theorem stop_ticks_resume (b : Board) (n : nat) :
  tick (exec stop b) = (Ret tt, exec stop b) /\
  ticks n (exec stop b) = exec stop b /\
  active_cells (ticks n (exec stop b)) = active_cells b /\
  timers (ticks n (exec stop b)) = timers b /\
  resume (ticks n (exec stop b)) = update_cells (set_stopped false b) /\
  (grid_ok b -> active_colors b <> [] ->
   exists b', resume (ticks n (exec stop b)) = (Ret tt, b') /\
              active_cells b' = next_alive b /\
              _stopped b' = false /\
              timers b' = timers b ++ [delay_of (speed b)]).
Proof.
  assert (T : tick (exec stop b) = (Ret tt, exec stop b))
    by (apply update_cells_stopped; reflexivity).
  assert (N : ticks n (exec stop b) = exec stop b).
  { induction n as [|n IH]; simpl; [reflexivity|].
    unfold exec at 1. rewrite T. exact IH. }
  split; [exact T|]. split; [exact N|]. rewrite N.
  split; [reflexivity|]. split; [reflexivity|]. split; [reflexivity|].
  intros G Hc.
  destruct (update_cells_running (set_stopped false b) G Hc eq_refl)
    as [b' [R [A [Ht S]]]].
  exists b'. split; [exact R|]. split; [exact A|]. split; [|exact Ht].
  unfold same_config in S. simpl in S. tauto.
Qed.

(** The running blinker, stopped, seven timers firing, then resumed. *)
Lemma stop_ticks_resume_witness :
  grid_ok blinker_running /\ active_colors blinker_running <> [] /\
  exists b', resume (ticks 7 (exec stop blinker_running)) = (Ret tt, b') /\
             active_cells b' = next_alive blinker_running /\
             _stopped b' = false /\
             timers b' = timers blinker_running ++ [delay_of (speed blinker_running)].
Proof.
  split; [exact blinker_running_grid_ok|].
  split; [exact blinker_running_colors|].
  exact (proj2 (proj2 (proj2 (proj2 (proj2 (stop_ticks_resume blinker_running 7)))))
           blinker_running_grid_ok blinker_running_colors).
Defined.

(** ** The delay between two steps *)

(** C3: the delay is [max(10, 1000 - speed*9)]: 1000 at speed 0, 550 at
    speed 50, 100 at speed 100, never longer at a higher speed, and it
    is the delay a running [update_cells] hands to [master.after]. *)
Theorem delay_of_speed :
  (forall s, delay_of s = Z.max 10 (1000 - s * 9)) /\
  delay_of 0 = 1000 /\ delay_of 50 = 550 /\ delay_of 100 = 100 /\
  (forall s1 s2, 0 <= s1 -> s1 <= s2 -> s2 <= 100 ->
                 delay_of s2 <= delay_of s1) /\
  (forall b, grid_ok b -> active_colors b <> [] -> _stopped b = false ->
             timers (exec update_cells b) =
             timers b ++ [Z.max 10 (1000 - speed b * 9)]).
Proof.
  split; [reflexivity|]. split; [reflexivity|]. split; [reflexivity|].
  split; [reflexivity|]. split.
  - intros s1 s2 H0 H1 H2. unfold delay_of. lia.
  - intros b G Hc Hs.
    destruct (update_cells_running b G Hc Hs) as [b' [R [_ [Ht _]]]].
    unfold exec. rewrite R. exact Ht.
Qed.

(** Speeds 30 and 80, and the delay the running blinker schedules. *)
Lemma delay_of_speed_witness :
  delay_of 80 <= delay_of 30 /\
  timers (exec update_cells blinker_running) =
  timers blinker_running ++ [Z.max 10 (1000 - speed blinker_running * 9)].
Proof.
  split.
  - apply (proj1 (proj2 (proj2 (proj2 (proj2 delay_of_speed)))) 30 80); lia.
  - apply (proj2 (proj2 (proj2 (proj2 (proj2 delay_of_speed))))).
    + exact blinker_running_grid_ok.
    + exact blinker_running_colors.
    + reflexivity.
Defined.

(** C4, as stated, fails: at speed 100 the delay is not the 10 ms floor. *)
Lemma delay_at_full_speed_not_floor : delay_of 100 <> 10.
Proof. discriminate. Qed.

(** C4, amended: at speed 100 the delay is the 100 ms of the linear
    formula; the delay is never under 10 ms, and it is 10 ms exactly
    from speed 110 on. *)
Theorem delay_at_full_speed :
  delay_of 100 = 1000 - 100 * 9 /\
  delay_of 100 = 100 /\
  (forall s, 10 <= delay_of s) /\
  (forall s, delay_of s = 10 <-> 110 <= s).
Proof.
  split; [reflexivity|]. split; [reflexivity|].
  split; intros s; unfold delay_of; lia.
Qed.

(** ** [set_speed] *)

(** C6, as stated, fails: a value above 100 is stored as it is. *)
Lemma set_speed_not_clamped :
  ~ (0 <= speed (exec (set_speed 150) Board_default) <= 100).
Proof. simpl. lia. Qed.

(** C6, amended: [set_speed] stores the integer it is given, unchanged,
    so a value within 0..100 stays within 0..100; it touches neither the
    pending timers nor the alive list, and the next delay a running
    [update_cells] computes is the one of the new speed, scheduled after
    the timers already pending. *)
Theorem set_speed_stores (v : Z) (b : Board) :
  set_speed v b = (Ret tt, set_speed_field v b) /\
  speed (exec (set_speed v) b) = v /\
  timers (exec (set_speed v) b) = timers b /\
  active_cells (exec (set_speed v) b) = active_cells b /\
  (0 <= v <= 100 -> 0 <= speed (exec (set_speed v) b) <= 100) /\
  (grid_ok b -> active_colors b <> [] -> _stopped b = false ->
   timers (exec update_cells (exec (set_speed v) b)) =
   timers b ++ [delay_of v]).
Proof.
  repeat (split; [reflexivity|]). split; [intros H; exact H|].
  intros G Hc Hs.
  destruct (update_cells_running (set_speed_field v b) G Hc Hs)
    as [b' [R [_ [Ht _]]]].
  unfold exec at 1. change (exec (set_speed v) b) with (set_speed_field v b).
  rewrite R. exact Ht.
Qed.

(** Speed 70 set on the running blinker. *)
Lemma set_speed_stores_witness :
  0 <= speed (exec (set_speed 70) blinker_running) <= 100 /\
  timers (exec update_cells (exec (set_speed 70) blinker_running)) =
  timers blinker_running ++ [delay_of 70].
Proof.
  split.
  - apply (proj1 (proj2 (proj2 (proj2 (proj2
             (set_speed_stores 70 blinker_running)))))). lia.
  - apply (proj2 (proj2 (proj2 (proj2 (proj2
             (set_speed_stores 70 blinker_running)))))).
    + exact blinker_running_grid_ok.
    + exact blinker_running_colors.
    + reflexivity.
Defined.

(** ** [toggle_cell] with a position outside the grid *)

(** C5, as stated, fails for the row -1: the lookup [cells[-1][0]] is the
    first button of the last row, which the call activates. *)
Lemma toggle_row_minus_one_activates :
  fst (toggle_cell (ByCoord 0 (-1)) board5) = Ret tt /\
  active_cells board5 = [] /\
  active_cells (exec (toggle_cell (ByCoord 0 (-1))) board5) = [(4, 0)].
Proof. repeat split; reflexivity. Qed.

(** C5, amended: on a placed board a row outside [-nrows .. nrows-1] or
    a column outside [-ncols .. ncols-1], the row [nrows] among them,
    makes [toggle_cell] raise [IndexError] and leaves the whole board as
    it was; a negative row from [-nrows] on is counted from the end, so
    the call is the one on the button of row [nrows + row]. *)
Theorem toggle_cell_out_of_range (b : Board) (col row : Z) :
  grid_ok b ->
  (row < - nrows b \/ nrows b <= row \/ col < - ncols b \/ ncols b <= col ->
   toggle_cell (ByCoord col row) b = (Raise IndexError, b)) /\
  toggle_cell (ByCoord col (nrows b)) b = (Raise IndexError, b) /\
  (- nrows b <= row < 0 -> - ncols b <= col < ncols b ->
   toggle_cell (ByCoord col row) b =
   toggle_cell
     (ByButton (nrows b + row, if col <? 0 then ncols b + col else col)) b).
Proof.
  intros G.
  assert (Out : forall c r,
    r < - nrows b \/ nrows b <= r \/ c < - ncols b \/ ncols b <= c ->
    toggle_cell (ByCoord c r) b = (Raise IndexError, b)).
  { intros c r H. unfold toggle_cell, resolve, bind.
    rewrite (cell_at_outside b r c G H). reflexivity. }
  split; [apply Out|]. split; [apply Out; lia|].
  intros Hr Hc. unfold toggle_cell, resolve, bind at 1.
  rewrite (cell_at_wraps b row col G Hr Hc). reflexivity.
Qed.

(** Rows 5, -6 and -1 on the 5 x 5 board. *)
Lemma toggle_cell_out_of_range_witness :
  grid_ok board5 /\
  toggle_cell (ByCoord 0 5) board5 = (Raise IndexError, board5) /\
  toggle_cell (ByCoord 0 (-6)) board5 = (Raise IndexError, board5) /\
  toggle_cell (ByCoord 0 (-1)) board5 = toggle_cell (ByButton (4, 0)) board5.
Proof.
  split; [exact board5_grid_ok|]. split; [|split].
  - exact (proj1 (proj2 (toggle_cell_out_of_range board5 0 0 board5_grid_ok))).
  - apply (proj1 (toggle_cell_out_of_range board5 0 (-6) board5_grid_ok)).
    left. vm_compute. reflexivity.
  - apply (proj2 (proj2 (toggle_cell_out_of_range board5 0 (-1) board5_grid_ok)));
      vm_compute; split; congruence.
Defined.

(** ** Repeated activation *)

(** C9: toggling the same target a second time leaves [active_cells] as
    the first toggle left it; a toggle removes no button from
    [active_cells]; and after a toggle at a position of the grid that
    position's button is alive. *)
Theorem toggle_cell_idempotent (t : target) (b : Board) :
  active_cells (exec (toggle_cell t) (exec (toggle_cell t) b)) =
  active_cells (exec (toggle_cell t) b) /\
  (forall p, In p (active_cells b) ->
             In p (active_cells (exec (toggle_cell t) b))) /\
  (forall col row, t = ByCoord col row -> grid_ok b -> in_grid b row col ->
                   In (row, col) (active_cells (exec (toggle_cell t) b))).
Proof.
  destruct (toggle_cell_active t b) as [A1 C1].
  destruct (toggle_cell_active t (exec (toggle_cell t) b)) as [A2 _].
  rewrite (target_button_cells t b _ C1) in A2.
  split; [|split].
  - rewrite A2. destruct (target_button t b) as [btn|]; [|reflexivity].
    rewrite A1. destruct (contains btn (active_cells b)) eqn:E.
    + rewrite E. reflexivity.
    + replace (contains btn (active_cells b ++ [btn])) with true; [reflexivity|].
      symmetry. apply contains_In. apply in_or_app. right. left. reflexivity.
  - intros p Hp. rewrite A1. destruct (target_button t b) as [btn|]; [|exact Hp].
    destruct (contains btn (active_cells b)); [exact Hp|].
    apply in_or_app. left. exact Hp.
  - intros col row -> G H. rewrite A1. unfold target_button.
    rewrite (cell_at_in_grid b row col G H). simpl fst.
    destruct (contains (row, col) (active_cells b)) eqn:E; rewrite ?E.
    + exact (proj1 (contains_In _ _) E).
    + apply in_or_app. right. left. reflexivity.
Qed.

(** A click at row 2, column 3 of the 5 x 5 board. *)
Lemma toggle_cell_idempotent_witness :
  in_grid board5 2 3 /\
  In (2, 3) (active_cells (exec (toggle_cell (ByCoord 3 2)) board5)).
Proof.
  assert (H : in_grid board5 2 3) by (vm_compute; repeat split; congruence).
  split; [exact H|].
  exact (proj2 (proj2 (toggle_cell_idempotent (ByCoord 3 2) board5))
           3 2 eq_refl board5_grid_ok H).
Defined.

(** ** No button twice in [active_cells] *)

Lemma contains_cons (y x : button) (l : list button) :
  contains y (x :: l) = button_eqb y x || contains y l.
Proof. reflexivity. Qed.

Lemma length_filter_contains_cons (x : button) (l1 l2 : list button) :
  ~ In x l1 -> NoDup l2 ->
  List.length (filter (fun y => contains y (x :: l1)) l2) =
  ((if contains x l2 then 1 else 0) +
   List.length (filter (fun y => contains y l1) l2))%nat.
Proof.
  intros Hx. induction 1 as [|y l2 Hy N IH]; [reflexivity|].
  cbn [filter]. rewrite (contains_cons y x l1), (contains_cons x y l2).
  destruct (button_eqb y x) eqn:E.
  - apply button_eqb_eq in E. subst y. rewrite button_eqb_refl.
    apply contains_not_In in Hx. rewrite Hx.
    apply contains_not_In in Hy. rewrite Hy in IH.
    cbn [orb List.length]. rewrite IH. reflexivity.
  - assert (E' : button_eqb x y = false).
    { apply button_eqb_neq. apply button_eqb_neq in E. congruence. }
    rewrite E'. cbn [orb].
    destruct (contains y l1); cbn [List.length]; rewrite IH; lia.
Qed.

Lemma length_filter_contains_sym (l1 l2 : list button) :
  NoDup l1 -> NoDup l2 ->
  List.length (filter (fun y => contains y l2) l1) =
  List.length (filter (fun y => contains y l1) l2).
Proof.
  intros N1 N2. induction N1 as [|x l1 Hx N1 IH].
  - simpl. induction l2 as [|y l2 IH2]; [reflexivity|].
    inversion N2; subst. simpl. apply IH2. assumption.
  - rewrite (length_filter_contains_cons x l1 l2 Hx N2).
    cbn [filter]. destruct (contains x l2); cbn [List.length]; rewrite IH; lia.
Qed.

(** C10: [toggle_cell], [deactivate_cell] and [update_cells] keep
    [active_cells] free of repetitions, whether they return or raise; and
    with no repetition the neighbour count of a position is the number of
    entries of [active_cells] that are among its examined neighbours, each
    alive button counting once. *)
Theorem active_cells_NoDup :
  (forall t b, NoDup (active_cells b) ->
               NoDup (active_cells (exec (toggle_cell t) b))) /\
  (forall btn b, NoDup (active_cells b) ->
                 NoDup (active_cells (exec (deactivate_cell btn) b))) /\
  (forall b, NoDup (active_cells b) ->
             NoDup (active_cells (exec update_cells b))) /\
  (forall b row col, grid_ok b -> NoDup (active_cells b) ->
     get_neighbors_count row col b =
     (Ret (Z.of_nat (List.length
             (filter (fun p => contains p (examined b row col))
                     (active_cells b)))), b)).
Proof.
  split; [|split; [|split]].
  - intros t b N. destruct (toggle_cell_active t b) as [A _]. rewrite A.
    destruct (target_button t b) as [btn|]; [|exact N].
    destruct (contains btn (active_cells b)) eqn:E; [exact N|].
    apply contains_not_In in E. apply NoDup_app; [exact N | |].
    + constructor; [simpl; tauto | constructor].
    + intros y Hy [<-|[]]. contradiction.
  - intros btn b N. unfold exec. rewrite deactivate_cell_active. simpl.
    apply NoDup_remove_first. exact N.
  - exact update_cells_NoDup.
  - intros b row col G N. rewrite (get_neighbors_count_eq b row col G).
    unfold alive_among.
    rewrite (length_filter_contains_sym _ _ (NoDup_examined b row col) N).
    reflexivity.
Qed.

(** The three operations and a neighbour count on the running blinker. *)
Lemma active_cells_NoDup_witness :
  NoDup (active_cells blinker_running) /\
  NoDup (active_cells (exec (toggle_cell (ByCoord 2 1)) blinker_running)) /\
  NoDup (active_cells (exec (deactivate_cell (1, 2)) blinker_running)) /\
  NoDup (active_cells (exec update_cells blinker_running)) /\
  get_neighbors_count 2 2 blinker_running = (Ret 3, blinker_running).
Proof.
  pose proof blinker_running_NoDup as N.
  split; [exact N|]. split; [|split; [|split]].
  - exact (proj1 active_cells_NoDup (ByCoord 2 1) blinker_running N).
  - exact (proj1 (proj2 active_cells_NoDup) (1, 2) blinker_running N).
  - exact (proj1 (proj2 (proj2 active_cells_NoDup)) blinker_running N).
  - exact (proj2 (proj2 (proj2 active_cells_NoDup)) blinker_running 2 2
             blinker_running_grid_ok N).
Defined.

(** ** Neighbour counts at corners, on edges and inside *)

(** C7, as stated, fails on a grid of one row and one column: its only
    position is a corner, and the loops examine no position at all. *)
Lemma corner_of_board1_examines_none :
  in_grid board1 0 0 /\ corner board1 0 0 /\
  examined board1 0 0 = [] /\
  List.length (examined board1 0 0) <> 3%nat.
Proof.
  repeat split; try (vm_compute; congruence).
  - left; reflexivity.
  - left; reflexivity.
Qed.

(** C7, amended: on a placed board, for a position of the grid,
    [get_neighbors_count] returns the number of alive buttons among the
    examined positions, which are the positions of the grid at distance
    one in each direction, the position itself left out and nothing
    wrapped around; the count is at most 3 at a corner, at most 5 on an
    edge and at most 8 anywhere; and on a grid of at least two rows and
    two columns a corner examines 3 positions and an edge position 5,
    while an interior position examines 8. *)
Theorem get_neighbors_count_bounds (b : Board) (row col : Z) :
  grid_ok b -> in_grid b row col ->
  exists n,
    get_neighbors_count row col b = (Ret n, b) /\
    n = alive_among (active_cells b) (examined b row col) /\
    0 <= n <= Z.of_nat (List.length (examined b row col)) /\
    (forall p, In p (examined b row col) <->
               in_grid b (fst p) (snd p) /\
               (row - 1 <= fst p <= row + 1 /\ col - 1 <= snd p <= col + 1) /\
               p <> (row, col)) /\
    (corner b row col -> n <= 3) /\
    (edge b row col -> n <= 5) /\
    n <= 8 /\
    (2 <= nrows b -> 2 <= ncols b ->
     (corner b row col -> List.length (examined b row col) = 3%nat) /\
     (edge b row col -> List.length (examined b row col) = 5%nat)) /\
    (interior b row col -> List.length (examined b row col) = 8%nat).
Proof.
  intros G H.
  exists (alive_among (active_cells b) (examined b row col)).
  pose proof (alive_among_bounds (active_cells b) (examined b row col)) as B.
  pose proof (examined_length b row col H) as L.
  destruct H as [Hr Hc].
  set (h := Z.min (nrows b) (row + 2) - Z.max 0 (row - 1)) in L.
  set (w := Z.min (ncols b) (col + 2) - Z.max 0 (col - 1)) in L.
  assert (Hh : 1 <= h <= 3) by (unfold h; lia).
  assert (Hw : 1 <= w <= 3) by (unfold w; lia).
  split; [apply get_neighbors_count_eq; exact G|].
  split; [reflexivity|]. split; [exact B|].
  split; [intros p; apply In_examined|].
  split; [|split; [|split; [|split]]].
  - intros [Cr Cc].
    assert (h <= 2) by (unfold h; lia). assert (w <= 2) by (unfold w; lia). nia.
  - intros [[Er Ec]|[Er Ec]].
    + assert (h <= 2) by (unfold h; lia). nia.
    + assert (w <= 2) by (unfold w; lia). nia.
  - nia.
  - intros R2 C2. split.
    + intros [Cr Cc].
      assert (h = 2) by (unfold h; lia). assert (w = 2) by (unfold w; lia). nia.
    + intros [[Er Ec]|[Er Ec]].
      * assert (h = 2) by (unfold h; lia). assert (w = 3) by (unfold w; lia). nia.
      * assert (h = 3) by (unfold h; lia). assert (w = 2) by (unfold w; lia). nia.
  - intros [Ir Ic].
    assert (h = 3) by (unfold h; lia). assert (w = 3) by (unfold w; lia). nia.
Qed.

(** The centre of the 5 x 5 board carrying the blinker. *)
Lemma get_neighbors_count_bounds_witness :
  grid_ok blinker_running /\ in_grid blinker_running 2 2 /\
  exists n,
    get_neighbors_count 2 2 blinker_running = (Ret n, blinker_running) /\
    n = alive_among (active_cells blinker_running) (examined blinker_running 2 2) /\
    0 <= n <= Z.of_nat (List.length (examined blinker_running 2 2)) /\
    (forall p, In p (examined blinker_running 2 2) <->
               in_grid blinker_running (fst p) (snd p) /\
               (2 - 1 <= fst p <= 2 + 1 /\ 2 - 1 <= snd p <= 2 + 1) /\
               p <> (2, 2)) /\
    (corner blinker_running 2 2 -> n <= 3) /\
    (edge blinker_running 2 2 -> n <= 5) /\
    n <= 8 /\
    (2 <= nrows blinker_running -> 2 <= ncols blinker_running ->
     (corner blinker_running 2 2 ->
      List.length (examined blinker_running 2 2) = 3%nat) /\
     (edge blinker_running 2 2 ->
      List.length (examined blinker_running 2 2) = 5%nat)) /\
    (interior blinker_running 2 2 ->
     List.length (examined blinker_running 2 2) = 8%nat).
Proof.
  assert (H : in_grid blinker_running 2 2) by (vm_compute; repeat split; congruence).
  split; [exact blinker_running_grid_ok|]. split; [exact H|].
  exact (get_neighbors_count_bounds blinker_running 2 2 blinker_running_grid_ok H).
Defined.

(** ** The rule of one evolution step *)

Lemma born_true_iff (b : Board) (p : button) :
  born b p = true <-> ~ In p (active_cells b) /\ neighbors b p = 3.
Proof.
  unfold born. rewrite andb_true_iff, negb_true_iff, contains_not_In, Z.eqb_eq.
  tauto.
Qed.

Lemma dies_true_iff (b : Board) (p : button) :
  dies b p = true <->
  In p (active_cells b) /\ neighbors b p <> 2 /\ neighbors b p <> 3.
Proof.
  unfold dies.
  rewrite andb_true_iff, negb_true_iff, orb_false_iff, contains_In, !Z.eqb_neq.
  tauto.
Qed.

Lemma In_active_dec (b : Board) (p : button) :
  In p (active_cells b) \/ ~ In p (active_cells b).
Proof.
  destruct (contains p (active_cells b)) eqn:E.
  - left. apply contains_In. exact E.
  - right. apply contains_not_In. exact E.
Qed.

(** C1: on a placed, running board with no button twice in
    [active_cells], [update_cells] returns, and for every position of the
    grid the count [n] that [get_neighbors_count] gives on the board
    before the call is the number of alive buttons among the examined
    positions, which are the positions of the grid one step away in any
    of the eight directions, each once and the position itself left out;
    with that [n]: a dead cell with [n = 3] is alive afterwards, an
    alive cell with [n] neither 2 nor 3 is dead afterwards, and any
    other cell is alive afterwards exactly when it was before.  The
    counts are those of the board before the call, so no transition
    depends on another one of the same step.  Buttons outside the grid
    keep their state. *)
Theorem update_cells_life_rule (b : Board) :
  grid_ok b -> active_colors b <> [] -> NoDup (active_cells b) ->
  _stopped b = false ->
  exists b',
    update_cells b = (Ret tt, b') /\
    (forall row col, in_grid b row col ->
       exists n,
         get_neighbors_count row col b = (Ret n, b) /\
         n = alive_among (active_cells b) (examined b row col) /\
         n = Z.of_nat (List.length
                         (filter (fun p => contains p (examined b row col))
                                 (active_cells b))) /\
         NoDup (examined b row col) /\
         (forall p, In p (examined b row col) <->
                    in_grid b (fst p) (snd p) /\
                    (row - 1 <= fst p <= row + 1 /\
                     col - 1 <= snd p <= col + 1) /\
                    p <> (row, col)) /\
         (~ In (row, col) (active_cells b) -> n = 3 ->
          In (row, col) (active_cells b')) /\
         (In (row, col) (active_cells b) -> n <> 2 -> n <> 3 ->
          ~ In (row, col) (active_cells b')) /\
         (~ (~ In (row, col) (active_cells b) /\ n = 3) ->
          ~ (In (row, col) (active_cells b) /\ n <> 2 /\ n <> 3) ->
          (In (row, col) (active_cells b') <-> In (row, col) (active_cells b)))) /\
    (forall p, ~ in_grid b (fst p) (snd p) ->
               (In p (active_cells b') <-> In p (active_cells b))).
Proof.
  intros G Hc N Hs.
  destruct (update_cells_running b G Hc Hs) as [b' [R [A _]]].
  exists b'. split; [exact R|]. split.
  - intros row col H.
    exists (neighbors b (row, col)).
    split; [apply get_neighbors_count_eq; exact G|].
    split; [reflexivity|].
    split.
    { unfold neighbors, alive_among. cbn [fst snd].
      rewrite (length_filter_contains_sym _ _ (NoDup_examined b row col) N).
      reflexivity. }
    split; [apply NoDup_examined|].
    split; [intros p; apply In_examined|].
    assert (Hin : In (row, col) (all_cells b)) by (apply In_all_cells; exact H).
    rewrite A.
    pose proof (In_next_alive b (row, col) N) as K.
    rewrite born_true_iff, dies_true_iff in K.
    destruct (In_active_dec b (row, col)) as [D|D];
      destruct (Z.eq_dec (neighbors b (row, col)) 2);
      destruct (Z.eq_dec (neighbors b (row, col)) 3);
      tauto.
  - intros p H. rewrite A.
    pose proof (In_next_alive b p N) as K.
    rewrite In_all_cells in K. tauto.
Qed.

(** One step of the running blinker. *)
Lemma update_cells_life_rule_witness :
  grid_ok blinker_running /\ active_colors blinker_running <> [] /\
  NoDup (active_cells blinker_running) /\ _stopped blinker_running = false /\
  exists b',
    update_cells blinker_running = (Ret tt, b') /\
    (forall row col, in_grid blinker_running row col ->
       exists n,
         get_neighbors_count row col blinker_running = (Ret n, blinker_running) /\
         n = alive_among (active_cells blinker_running)
               (examined blinker_running row col) /\
         n = Z.of_nat (List.length
                         (filter
                            (fun p => contains p (examined blinker_running row col))
                            (active_cells blinker_running))) /\
         NoDup (examined blinker_running row col) /\
         (forall p, In p (examined blinker_running row col) <->
                    in_grid blinker_running (fst p) (snd p) /\
                    (row - 1 <= fst p <= row + 1 /\
                     col - 1 <= snd p <= col + 1) /\
                    p <> (row, col)) /\
         (~ In (row, col) (active_cells blinker_running) -> n = 3 ->
          In (row, col) (active_cells b')) /\
         (In (row, col) (active_cells blinker_running) -> n <> 2 -> n <> 3 ->
          ~ In (row, col) (active_cells b')) /\
         (~ (~ In (row, col) (active_cells blinker_running) /\ n = 3) ->
          ~ (In (row, col) (active_cells blinker_running) /\ n <> 2 /\ n <> 3) ->
          (In (row, col) (active_cells b') <->
           In (row, col) (active_cells blinker_running)))) /\
    (forall p, ~ in_grid blinker_running (fst p) (snd p) ->
               (In p (active_cells b') <-> In p (active_cells blinker_running))).
Proof.
  split; [exact blinker_running_grid_ok|].
  split; [exact blinker_running_colors|].
  split; [exact blinker_running_NoDup|].
  split; [reflexivity|].
  exact (update_cells_life_rule blinker_running blinker_running_grid_ok
           blinker_running_colors blinker_running_NoDup eq_refl).
Defined.

(** ** The blinker *)

Lemma contains_same_cells (l1 l2 : list button) (p : button) :
  same_cells l1 l2 -> contains p l1 = contains p l2.
Proof.
  intros H. destruct (contains p l2) eqn:E.
  - apply contains_In. apply H. apply contains_In. exact E.
  - apply contains_not_In. intros K. apply contains_not_In in E.
    apply E. apply H. exact K.
Qed.

(** The step looks at the dimensions and at which buttons are alive,
    and at nothing else. *)
Lemma next_alive_ext (b r : Board) :
  nrows b = nrows r -> ncols b = ncols r ->
  NoDup (active_cells b) -> NoDup (active_cells r) ->
  same_cells (active_cells b) (active_cells r) ->
  same_cells (next_alive b) (next_alive r).
Proof.
  intros Hr Hc Nb Nr S p.
  assert (Ex : forall row col, examined b row col = examined r row col)
    by (intros; unfold examined, window; rewrite Hr, Hc; reflexivity).
  assert (All : all_cells b = all_cells r)
    by (unfold all_cells; rewrite Hr, Hc; reflexivity).
  assert (Nb' : forall q, neighbors b q = neighbors r q).
  { intros q. unfold neighbors, alive_among. rewrite Ex. do 2 f_equal.
    apply filter_ext. intros a. apply contains_same_cells. exact S. }
  assert (B : born b p = born r p)
    by (unfold born; rewrite Nb', (contains_same_cells _ _ p S); reflexivity).
  assert (D : dies b p = dies r p)
    by (unfold dies; rewrite Nb', (contains_same_cells _ _ p S); reflexivity).
  rewrite (In_next_alive b p Nb), (In_next_alive r p Nr), All, B, D, (S p).
  tauto.
Qed.

Lemma NoDup_horizontal : NoDup horizontal.
Proof. repeat constructor; simpl; intuition congruence. Qed.

Lemma NoDup_vertical : NoDup vertical.
Proof. repeat constructor; simpl; intuition congruence. Qed.

Lemma next_alive_horizontal :
  same_cells (next_alive (bare_board 5 5 horizontal)) vertical.
Proof.
  assert (E : next_alive (bare_board 5 5 horizontal) = [(1, 2); (0, 2); (2, 2)])
    by (vm_compute; reflexivity).
  rewrite E. intros p. simpl. tauto.
Qed.

Lemma next_alive_vertical :
  same_cells (next_alive (bare_board 5 5 vertical)) horizontal.
Proof.
  assert (E : next_alive (bare_board 5 5 vertical) = [(1, 2); (1, 1); (1, 3)])
    by (vm_compute; reflexivity).
  rewrite E. intros p. simpl. tauto.
Qed.

Lemma same_cells_trans (l1 l2 l3 : list button) :
  same_cells l1 l2 -> same_cells l2 l3 -> same_cells l1 l3.
Proof. intros H1 H2 p. rewrite (H1 p). apply H2. Qed.

(** One step of a running 5 x 5 board, from an alive set [from] whose
    step on the bare board is [to]. *)
Lemma running5_step (from to : list button) (b : Board) :
  NoDup from ->
  same_cells (next_alive (bare_board 5 5 from)) to ->
  running5 b -> same_cells (active_cells b) from ->
  fst (tick b) = Ret tt /\
  running5 (exec tick b) /\
  same_cells (active_cells (exec tick b)) to.
Proof.
  intros Nf St (Hr & Hc & G & Hcol & Hs & N) S.
  destruct (update_cells_running b G Hcol Hs) as [b' [R [A [_ C]]]].
  unfold tick, exec. rewrite R. simpl fst. simpl snd.
  unfold same_config in C. simpl in C.
  destruct C as (C1 & C2 & C3 & _ & _ & C6 & C7 & _).
  split; [reflexivity|]. split.
  - unfold running5, grid_ok. rewrite C1, C2, C3, C6, C7, A.
    repeat split; try assumption. apply NoDup_next_alive. exact N.
  - rewrite A. eapply same_cells_trans; [|exact St].
    apply next_alive_ext; try assumption.
Qed.

Lemma running5_two_steps (b : Board) :
  running5 b -> same_cells (active_cells b) horizontal ->
  running5 (exec tick (exec tick b)) /\
  same_cells (active_cells (exec tick b)) vertical /\
  same_cells (active_cells (exec tick (exec tick b))) horizontal.
Proof.
  intros Rb S.
  destruct (running5_step horizontal vertical b NoDup_horizontal
              next_alive_horizontal Rb S) as (_ & R1 & S1).
  destruct (running5_step vertical horizontal (exec tick b) NoDup_vertical
              next_alive_vertical R1 S1) as (_ & R2 & S2).
  split; [exact R2 | split; [exact S1 | exact S2]].
Qed.

Lemma blinker_period (n : nat) :
  forall b, running5 b -> same_cells (active_cells b) horizontal ->
    same_cells (active_cells (ticks (2 * n) b)) horizontal /\
    same_cells (active_cells (ticks (2 * n + 1) b)) vertical.
Proof.
  induction n as [|n IH]; intros b Rb Sb.
  - split; [exact Sb|]. apply (running5_two_steps b Rb Sb).
  - destruct (running5_two_steps b Rb Sb) as (R2 & _ & S2).
    replace (2 * S n)%nat with (S (S (2 * n)%nat)) by lia.
    replace (S (S (2 * n)) + 1)%nat with (S (S (2 * n + 1)%nat)) by lia.
    cbn [ticks]. apply IH; assumption.
Qed.

(** C8: a placed, running 5 x 5 board whose alive buttons are exactly
    (1,1), (1,2), (1,3) has exactly (0,2), (1,2), (2,2) alive after one
    call of [update_cells], the first three again after a second call,
    and so on through the third and fourth call and every later one:
    the horizontal set after an even number of calls, the vertical set
    after an odd number. *)
Theorem blinker_oscillates (b : Board) :
  nrows b = 5 -> ncols b = 5 -> grid_ok b -> active_colors b <> [] ->
  _stopped b = false -> NoDup (active_cells b) ->
  same_cells (active_cells b) horizontal ->
  fst (update_cells b) = Ret tt /\
  same_cells (active_cells (exec update_cells b)) vertical /\
  same_cells (active_cells (exec update_cells (exec update_cells b))) horizontal /\
  same_cells (active_cells (ticks 3 b)) vertical /\
  same_cells (active_cells (ticks 4 b)) horizontal /\
  (forall n, same_cells (active_cells (ticks (2 * n) b)) horizontal /\
             same_cells (active_cells (ticks (2 * n + 1) b)) vertical).
Proof.
  intros Hr Hc G Hcol Hs N S.
  assert (Rb : running5 b) by (unfold running5; tauto).
  split.
  - apply (running5_step horizontal vertical b NoDup_horizontal
             next_alive_horizontal Rb S).
  - split; [apply (running5_two_steps b Rb S)|].
    split; [apply (running5_two_steps b Rb S)|].
    split; [exact (proj2 (blinker_period 1 b Rb S))|].
    split; [exact (proj1 (blinker_period 2 b Rb S))|].
    intros n. apply blinker_period; assumption.
Qed.

(** The blinker clicked onto the 5 x 5 board and set running. *)
Lemma blinker_oscillates_witness :
  same_cells (active_cells blinker_running) horizontal /\
  fst (update_cells blinker_running) = Ret tt /\
  same_cells (active_cells (exec update_cells blinker_running)) vertical /\
  same_cells
    (active_cells (exec update_cells (exec update_cells blinker_running)))
    horizontal /\
  same_cells (active_cells (ticks 3 blinker_running)) vertical /\
  same_cells (active_cells (ticks 4 blinker_running)) horizontal /\
  (forall n,
     same_cells (active_cells (ticks (2 * n) blinker_running)) horizontal /\
     same_cells (active_cells (ticks (2 * n + 1) blinker_running)) vertical).
Proof.
  assert (S : same_cells (active_cells blinker_running) horizontal)
    by (intros p; rewrite blinker_running_cells; unfold horizontal; tauto).
  split; [exact S|].
  exact (blinker_oscillates blinker_running eq_refl eq_refl
           blinker_running_grid_ok blinker_running_colors eq_refl
           blinker_running_NoDup S).
Defined.

(** * Further properties of the code *)

(** ** Statements that keep a property of the board *)

Section Keeps.

Variable P : Board -> Prop.

Lemma keeps_ret {A : Type} (a : A) : keeps P (ret a).
Proof. intros b H; exact H. Qed.

Lemma keeps_raise {A : Type} (e : exn) : keeps P (@raise A e).
Proof. intros b H; exact H. Qed.

Lemma keeps_gets {A : Type} (f : Board -> A) : keeps P (gets f).
Proof. intros b H; exact H. Qed.

Lemma keeps_from_option {A : Type} (e : exn) (o : option A) :
  keeps P (from_option e o).
Proof. destruct o; intros b H; exact H. Qed.

Lemma keeps_modify (f : Board -> Board) :
  (forall b, P b -> P (f b)) -> keeps P (modify f).
Proof. intros Hf b H. apply Hf. exact H. Qed.

Lemma keeps_bind {A B : Type} (m : M A) (k : A -> M B) :
  keeps P m -> (forall a, keeps P (k a)) -> keeps P (bind m k).
Proof.
  intros Hm Hk b H. unfold bind. specialize (Hm b H).
  destruct (m b) as [[a|e] b']; simpl in *; [apply Hk; exact Hm | exact Hm].
Qed.

Lemma keeps_for_each {X A : Type} (xs : list X) (body : X -> A -> M A) :
  (forall x a, keeps P (body x a)) ->
  forall acc, keeps P (for_each xs body acc).
Proof.
  intros Hb. induction xs as [|x xs IH]; intros acc; simpl.
  - apply keeps_ret.
  - apply keeps_bind; [apply Hb | intros a; apply IH].
Qed.

Lemma keeps_readonly {A : Type} (m : M A) : readonly m -> keeps P m.
Proof. intros R b H. rewrite R. exact H. Qed.

(** [P] does not look at the alive list, the colours or the timers. *)
Hypothesis P_active : forall l b, P b -> P (set_active_cells l b).
Hypothesis P_bg : forall f b, P b -> P (set_bg f b).
Hypothesis P_timers : forall t b, P b -> P (set_timers t b).

Lemma keeps_configure_bg (btn : button) (c : color) :
  keeps P (configure_bg btn c).
Proof. apply keeps_modify. intros b H. apply P_bg. exact H. Qed.

Lemma keeps_toggle_button (btn : button) : keeps P (toggle_button btn).
Proof.
  unfold toggle_button.
  apply keeps_bind; [apply keeps_gets | intros act].
  destruct (contains btn act).
  - apply keeps_bind; [apply keeps_gets | intros colors].
    apply keeps_bind; [apply keeps_gets | intros cur].
    apply keeps_bind; [apply keeps_from_option | intros idx].
    cbv zeta.
    apply keeps_bind;
      [destruct (_ =? 0); [apply keeps_raise | apply keeps_ret] | intros _].
    apply keeps_bind; [apply keeps_from_option | intros c].
    apply keeps_configure_bg.
  - apply keeps_bind;
      [apply keeps_modify; intros b H; apply P_active; exact H | intros _].
    apply keeps_bind; [apply keeps_gets | intros colors].
    apply keeps_bind; [apply keeps_from_option | intros c].
    apply keeps_configure_bg.
Qed.

Lemma keeps_toggle_cell (t : target) : keeps P (toggle_cell t).
Proof.
  unfold toggle_cell. apply keeps_bind; [|intros btn; apply keeps_toggle_button].
  destruct t; [apply keeps_ret | apply keeps_readonly, readonly_cell_at].
Qed.

Lemma keeps_deactivate_cell (btn : button) : keeps P (deactivate_cell btn).
Proof.
  unfold deactivate_cell.
  apply keeps_bind; [apply keeps_gets | intros act].
  apply keeps_bind.
  - destruct (contains btn act); [|apply keeps_ret].
    apply keeps_modify. intros b H. apply P_active. exact H.
  - intros _. apply keeps_bind; [apply keeps_gets | intros d].
    apply keeps_configure_bg.
Qed.

Lemma keeps_activate_batch (btn : button) (u : unit) :
  keeps P (activate_batch btn u).
Proof.
  unfold activate_batch.
  apply keeps_bind; [apply keeps_gets | intros act].
  destruct (negb (contains btn act)); [|apply keeps_ret].
  apply keeps_bind;
    [apply keeps_modify; intros b H; apply P_active; exact H | intros _].
  apply keeps_bind; [apply keeps_gets | intros colors].
  apply keeps_bind; [apply keeps_from_option | intros c].
  apply keeps_configure_bg.
Qed.

Lemma keeps_update_cells : keeps P update_cells.
Proof.
  unfold update_cells.
  apply keeps_bind; [apply keeps_gets | intros stopped].
  destruct stopped; [apply keeps_ret|].
  apply keeps_bind; [apply keeps_readonly, readonly_scan | intros lists].
  apply keeps_bind;
    [apply keeps_for_each; intros; apply keeps_activate_batch | intros _].
  apply keeps_bind;
    [apply keeps_for_each; intros; apply keeps_deactivate_cell | intros _].
  apply keeps_bind; [apply keeps_gets | intros s].
  apply keeps_modify. intros b H. apply P_timers. exact H.
Qed.

End Keeps.

(** X1: whatever they are called on, and whether they return or raise,
    [toggle_cell], [deactivate_cell] and [update_cells] leave the
    dimensions, the grid of buttons, the colour settings, the speed and
    the stopped flag of the board as they were. *)
Theorem operations_keep_setup (b : Board) :
  (forall t, setup (exec (toggle_cell t) b) = setup b) /\
  (forall btn, setup (exec (deactivate_cell btn) b) = setup b) /\
  setup (exec update_cells b) = setup b.
Proof.
  assert (Pa : forall l b0, setup b0 = setup b -> setup (set_active_cells l b0) = setup b)
    by (intros l b0 H; exact H).
  assert (Pb : forall f b0, setup b0 = setup b -> setup (set_bg f b0) = setup b)
    by (intros f b0 H; exact H).
  assert (Pt : forall t b0, setup b0 = setup b -> setup (set_timers t b0) = setup b)
    by (intros t b0 H; exact H).
  split; [|split].
  - intros t. apply (keeps_toggle_cell _ Pa Pb t b eq_refl).
  - intros btn. apply (keeps_deactivate_cell _ Pa Pb btn b eq_refl).
  - apply (keeps_update_cells _ Pa Pb Pt b eq_refl).
Qed.

(** ** Lists of colours *)

Lemma index_of_Some (c : color) (l : list color) :
  forall i, index_of c l = Some i ->
            0 <= i < Z.of_nat (List.length l) /\ getitem l i = Some c.
Proof.
  induction l as [|d l IH]; intros i H; simpl in H; [discriminate|].
  destruct (String.eqb d c) eqn:E.
  - apply String.eqb_eq in E. inversion H; subst. split; [simpl; lia | reflexivity].
  - destruct (index_of c l) as [j|]; [|discriminate].
    inversion H; subst. destruct (IH j eq_refl) as [B G].
    split; [simpl List.length; lia|].
    rewrite getitem_in_bounds in * by lia.
    replace (Z.to_nat (j + 1)) with (S (Z.to_nat j)) by lia. exact G.
Qed.

Lemma In_index_of (c : color) (l : list color) :
  In c l -> exists i, index_of c l = Some i.
Proof.
  induction l as [|d l IH]; simpl; [tauto|]. intros H.
  destruct (String.eqb d c) eqn:E; [exists 0; reflexivity|].
  destruct H as [H|H]; [apply String.eqb_neq in E; congruence|].
  destruct (IH H) as [i Hi]. rewrite Hi. exists (i + 1). reflexivity.
Qed.

Lemma getitem_Some_In {A : Type} (l : list A) (i : Z) (a : A) :
  getitem l i = Some a -> In a l.
Proof.
  unfold getitem. intros H.
  destruct (0 <=? i); [eapply nth_error_In; exact H|].
  destruct (_ <=? i); [eapply nth_error_In; exact H | discriminate].
Qed.

Lemma getitem_lt {A : Type} (l : list A) (i : Z) :
  0 <= i < Z.of_nat (List.length l) -> exists a, getitem l i = Some a.
Proof.
  intros H. rewrite getitem_in_bounds by lia.
  destruct (nth_error l (Z.to_nat i)) as [a|] eqn:E; [exists a; reflexivity|].
  apply nth_error_None in E. lia.
Qed.

Lemma index_of_getitem (l : list color) :
  NoDup l -> forall i c, 0 <= i -> getitem l i = Some c -> index_of c l = Some i.
Proof.
  induction 1 as [|d l Hd N IH]; intros i c Hi G.
  - rewrite getitem_in_bounds in G by lia. destruct (Z.to_nat i); discriminate.
  - rewrite getitem_in_bounds in G by lia. simpl.
    destruct (Z.to_nat i) as [|k] eqn:Ek.
    + simpl in G. inversion G; subst. rewrite String.eqb_refl.
      f_equal. lia.
    + simpl in G. destruct (String.eqb d c) eqn:E.
      * apply String.eqb_eq in E. subst. exfalso. apply Hd.
        eapply nth_error_In. exact G.
      * rewrite (IH (Z.of_nat k) c) by
          (try lia; rewrite getitem_in_bounds by lia; rewrite Nat2Z.id; exact G).
        f_equal. lia.
Qed.

(** ** What one click does *)

Lemma toggle_button_dead (btn : button) (b : Board) (c : color) :
  contains btn (active_cells b) = false ->
  getitem (active_colors b) 0 = Some c ->
  toggle_button btn b =
  (Ret tt, set_bg (fun x => if button_eqb x btn then c else bg b x)
             (set_active_cells (active_cells b ++ [btn]) b)).
Proof.
  intros E G. unfold toggle_button, bind, gets, modify, from_option, configure_bg.
  rewrite E. cbn -[getitem]. rewrite G. reflexivity.
Qed.

Lemma toggle_button_alive (btn : button) (b : Board) (i : Z) (c : color) :
  contains btn (active_cells b) = true ->
  index_of (bg b btn) (active_colors b) = Some i ->
  getitem (active_colors b)
    ((i + 1) mod Z.of_nat (List.length (active_colors b))) = Some c ->
  toggle_button btn b =
  (Ret tt, set_bg (fun x => if button_eqb x btn then c else bg b x) b).
Proof.
  intros E I G. unfold toggle_button, bind, gets, modify, from_option, configure_bg.
  rewrite E. cbn beta iota zeta. rewrite I. cbn beta iota zeta.
  destruct (index_of_Some _ _ _ I) as [B _].
  destruct (Z.eqb_spec (Z.of_nat (List.length (active_colors b))) 0); [lia|].
  unfold ret. cbn beta iota. rewrite G. reflexivity.
Qed.

Lemma activate_batch_dead (btn : button) (b : Board) :
  contains btn (active_cells b) = false ->
  activate_batch btn tt b = toggle_button btn b.
Proof.
  intros E. unfold activate_batch, toggle_button, bind, gets. rewrite E.
  reflexivity.
Qed.

Lemma activate_batch_alive (btn : button) (b : Board) :
  contains btn (active_cells b) = true ->
  activate_batch btn tt b = (Ret tt, b).
Proof.
  intros E. unfold activate_batch, bind, gets. rewrite E. reflexivity.
Qed.

Lemma cell_at_raises (row col : Z) (b : Board) (e : exn) :
  fst (cell_at row col b) = Raise e -> e = IndexError.
Proof.
  unfold cell_at, bind, gets, from_option.
  destruct (getitem (cells b) row) as [r|]; simpl;
    [destruct (getitem r col); simpl|]; congruence.
Qed.

(** ** The boards the program can reach *)

Lemma well_formed_recolor (btn : button) (c : color) (b : Board) :
  well_formed b -> In btn (active_cells b) -> In c (active_colors b) ->
  well_formed (set_bg (fun x => if button_eqb x btn then c else bg b x) b).
Proof.
  intros (G & Hc & N & Co & Dd) Hb Hin.
  repeat split; try assumption.
  - intros p Hp. simpl. destruct (button_eqb p btn); [exact Hin | apply Co; exact Hp].
  - intros p Hp. simpl. destruct (button_eqb p btn) eqn:E.
    + apply button_eqb_eq in E. subst. contradiction.
    + apply Dd. exact Hp.
Qed.

Lemma well_formed_activate (btn : button) (c : color) (b : Board) :
  well_formed b -> ~ In btn (active_cells b) -> In c (active_colors b) ->
  well_formed (set_bg (fun x => if button_eqb x btn then c else bg b x)
                 (set_active_cells (active_cells b ++ [btn]) b)).
Proof.
  intros (G & Hc & N & Co & Dd) Hb Hin.
  repeat split; try assumption.
  - simpl. apply NoDup_app; [assumption | |].
    + constructor; [simpl; tauto | constructor].
    + intros y Hy [<-|[]]. contradiction.
  - intros p Hp. simpl in *. destruct (button_eqb p btn) eqn:E; [exact Hin|].
    apply Co. apply in_app_or in Hp. destruct Hp as [Hp|[Hp|[]]]; [exact Hp|].
    apply button_eqb_neq in E. congruence.
  - intros p Hp. simpl in *. destruct (button_eqb p btn) eqn:E.
    + apply button_eqb_eq in E. subst. exfalso. apply Hp.
      apply in_or_app. right. left. reflexivity.
    + apply Dd. intros K. apply Hp. apply in_or_app. left. exact K.
Qed.

Lemma well_formed_deactivate (btn : button) (b : Board) :
  well_formed b ->
  well_formed
    (set_bg (fun x => if button_eqb x btn then disabled_color b else bg b x)
       (set_active_cells (remove_first btn (active_cells b)) b)).
Proof.
  intros (G & Hc & N & Co & Dd).
  repeat split; try assumption.
  - simpl. apply NoDup_remove_first. exact N.
  - intros p Hp. simpl in *.
    apply (In_remove_first_NoDup btn p _ N) in Hp. destruct Hp as [Hp Hne].
    apply button_eqb_neq in Hne. rewrite Hne. apply Co. exact Hp.
  - intros p Hp. simpl in *. destruct (button_eqb p btn) eqn:E; [reflexivity|].
    apply Dd. intros K. apply Hp.
    apply (In_remove_first_NoDup btn p _ N). split; [exact K|].
    apply button_eqb_neq. exact E.
Qed.

Lemma toggle_button_well_formed (btn : button) (b : Board) :
  well_formed b ->
  exists b', toggle_button btn b = (Ret tt, b') /\ well_formed b'.
Proof.
  intros W. pose proof W as (G & Hc & N & Co & Dd).
  destruct (contains btn (active_cells b)) eqn:E.
  - pose proof (proj1 (contains_In _ _) E) as Hb.
    destruct (In_index_of _ _ (Co btn Hb)) as [i I].
    destruct (index_of_Some _ _ _ I) as [B _].
    destruct (getitem_lt (active_colors b)
                ((i + 1) mod Z.of_nat (List.length (active_colors b))))
      as [c Gc]; [apply Z.mod_pos_bound; lia|].
    rewrite (toggle_button_alive btn b i c E I Gc).
    eexists. split; [reflexivity|].
    apply well_formed_recolor; [exact W | exact Hb |].
    eapply getitem_Some_In. exact Gc.
  - destruct (getitem_first _ Hc) as [c Gc].
    rewrite (toggle_button_dead btn b c E Gc).
    eexists. split; [reflexivity|].
    apply well_formed_activate; [exact W | apply contains_not_In; exact E |].
    eapply getitem_Some_In. exact Gc.
Qed.

Lemma deactivate_cell_well_formed (btn : button) (b : Board) :
  well_formed b ->
  exists b', deactivate_cell btn b = (Ret tt, b') /\ well_formed b'.
Proof.
  intros W. rewrite deactivate_cell_active. eexists. split; [reflexivity|].
  apply well_formed_deactivate. exact W.
Qed.

Lemma for_each_well_formed {X : Type} (xs : list X) (body : X -> unit -> M unit) :
  (forall x b, well_formed b ->
     exists b', body x tt b = (Ret tt, b') /\ well_formed b') ->
  forall b, well_formed b ->
    exists b', for_each xs body tt b = (Ret tt, b') /\ well_formed b'.
Proof.
  intros Hb. induction xs as [|x xs IH]; intros b W.
  - exists b. split; [reflexivity | exact W].
  - destruct (Hb x b W) as [b1 [R1 W1]]. destruct (IH b1 W1) as [b2 [R2 W2]].
    exists b2. split; [|exact W2].
    cbn [for_each]. unfold bind. rewrite R1. exact R2.
Qed.

Lemma well_formed_frame (b b' : Board) :
  well_formed b -> nrows b' = nrows b -> ncols b' = ncols b ->
  cells b' = cells b -> active_colors b' = active_colors b ->
  disabled_color b' = disabled_color b ->
  active_cells b' = active_cells b -> bg b' = bg b ->
  well_formed b'.
Proof.
  intros (G & Hc & N & Co & Dd) E1 E2 E3 E4 E5 E6 E7.
  unfold well_formed, grid_ok, colors_ok, dead_dark.
  rewrite E1, E2, E3, E4, E5, E6, E7. repeat split; assumption.
Qed.

Lemma update_cells_well_formed (b : Board) :
  well_formed b ->
  exists b', update_cells b = (Ret tt, b') /\ well_formed b'.
Proof.
  intros W. pose proof W as (G & _).
  unfold update_cells. unfold bind at 1, gets at 1.
  destruct (_stopped b); [exists b; split; [reflexivity | exact W]|].
  unfold bind at 1. rewrite (scan_eq b G). cbn [fst snd].
  destruct (for_each_well_formed (filter (born b) (all_cells b)) activate_batch)
    with (b := b) as [b1 [R1 W1]]; [|exact W|].
  { intros x b0 W0. destruct (contains x (active_cells b0)) eqn:E.
    - rewrite (activate_batch_alive x b0 E). exists b0. split; [reflexivity | exact W0].
    - rewrite (activate_batch_dead x b0 E). apply toggle_button_well_formed. exact W0. }
  unfold bind at 1. rewrite R1.
  destruct (for_each_well_formed (filter (dies b) (all_cells b))
              (fun btn _ => deactivate_cell btn))
    with (b := b1) as [b2 [R2 W2]]; [|exact W1|].
  { intros x b0 W0. apply deactivate_cell_well_formed. exact W0. }
  unfold bind at 1. rewrite R2.
  unfold bind, gets, after, modify. eexists. split; [reflexivity|].
  apply (well_formed_frame b2); try reflexivity. exact W2.
Qed.

Lemma place_well_formed (nr nc : Z) (colors : list color) (d : color) (s : Z) :
  colors <> [] -> well_formed (exec place (Board_init nr nc colors d s)).
Proof.
  intros H. repeat split.
  - exact H.
  - constructor.
  - intros p [].
Qed.

Lemma perform_well_formed (a : action) (b : Board) :
  well_formed b ->
  well_formed (exec (perform a) b) /\
  (fst (perform a b) = Ret tt \/
   exists col row, a = Toggle (ByCoord col row) /\ ~ in_grid b row col /\
                   perform a b = (Raise IndexError, b)).
Proof.
  intros W. destruct a as [t|btn| | | |v]; unfold exec; simpl perform.
  - destruct t as [btn|col row].
    + change (toggle_cell (ByButton btn) b) with (toggle_button btn b).
      destruct (toggle_button_well_formed btn b W) as [b' [R W']].
      rewrite R. split; [exact W' | left; reflexivity].
    + unfold toggle_cell, resolve, bind.
      pose proof (readonly_cell_at row col b) as Ro.
      pose proof (cell_at_raises row col b) as Rx.
      destruct (cell_at row col b) as [[btn|e] b0] eqn:C; simpl in Ro; subst b0.
      * destruct (toggle_button_well_formed btn b W) as [b' [R W']].
        rewrite R. split; [exact W' | left; reflexivity].
      * rewrite (Rx e eq_refl). split; [exact W|]. right.
        exists col, row. split; [reflexivity|]. split; [|reflexivity].
        intros H. destruct W as (G & _).
        rewrite (cell_at_in_grid b row col G H) in C. discriminate.
  - destruct (deactivate_cell_well_formed btn b W) as [b' [R W']].
    rewrite R. split; [exact W' | left; reflexivity].
  - destruct (update_cells_well_formed b W) as [b' [R W']].
    unfold tick. rewrite R. split; [exact W' | left; reflexivity].
  - split; [|left; reflexivity].
    apply (well_formed_frame b); try reflexivity. exact W.
  - assert (W0 : well_formed (set_stopped false b))
      by (apply (well_formed_frame b); try reflexivity; exact W).
    destruct (update_cells_well_formed _ W0) as [b' [R W']].
    unfold resume, bind, modify. rewrite R. split; [exact W' | left; reflexivity].
  - split; [|left; reflexivity].
    apply (well_formed_frame b); try reflexivity. exact W.
Qed.

Lemma perform_all_well_formed (acts : list action) :
  forall b, well_formed b -> well_formed (perform_all acts b).
Proof.
  induction acts as [|a acts IH]; intros b W; [exact W|].
  simpl. apply IH. apply perform_well_formed. exact W.
Qed.

Lemma perform_all_colors (acts : list action) :
  forall b,
    active_colors (perform_all acts b) = active_colors b /\
    disabled_color (perform_all acts b) = disabled_color b.
Proof.
  induction acts as [|a acts IH]; intros b; [split; reflexivity|].
  simpl. destruct (IH (exec (perform a) b)) as [E1 E2]. rewrite E1, E2.
  set (P := fun b' : Board =>
              active_colors b' = active_colors b /\
              disabled_color b' = disabled_color b).
  assert (Pa : forall l b0, P b0 -> P (set_active_cells l b0)) by (intros l b0 H; exact H).
  assert (Pb : forall f b0, P b0 -> P (set_bg f b0)) by (intros f b0 H; exact H).
  assert (Pt : forall t b0, P b0 -> P (set_timers t b0)) by (intros t b0 H; exact H).
  assert (P0 : P b) by (split; reflexivity).
  destruct a as [t|btn| | | |v]; unfold exec; simpl perform.
  - exact (keeps_toggle_cell P Pa Pb t b P0).
  - exact (keeps_deactivate_cell P Pa Pb btn b P0).
  - exact (keeps_update_cells P Pa Pb Pt b P0).
  - exact P0.
  - exact (keeps_update_cells P Pa Pb Pt (set_stopped false b) P0).
  - exact P0.
Qed.

(** X2: on a board made by [Board.__init__] with at least one active
    colour and then placed, after any actions (clicks, kills, timer
    callbacks, stop, resume, speed changes): no button is twice in
    [active_cells], every alive button shows an active colour and every
    dead one the disabled colour; and the next action returns without an
    exception, unless it is a toggle at a position that is not on the
    grid, which may raise [IndexError] and then changes nothing. *)
Theorem reachable_boards_well_formed
    (nr nc : Z) (colors : list color) (d : color) (s : Z)
    (acts : list action) (a : action) :
  colors <> [] ->
  well_formed (perform_all acts (exec place (Board_init nr nc colors d s))) /\
  (fst (perform a (perform_all acts (exec place (Board_init nr nc colors d s))))
   = Ret tt \/
   exists col row,
     a = Toggle (ByCoord col row) /\
     ~ in_grid (perform_all acts (exec place (Board_init nr nc colors d s)))
         row col /\
     perform a (perform_all acts (exec place (Board_init nr nc colors d s))) =
     (Raise IndexError,
      perform_all acts (exec place (Board_init nr nc colors d s)))).
Proof.
  intros H.
  assert (W : well_formed
                (perform_all acts (exec place (Board_init nr nc colors d s))))
    by (apply perform_all_well_formed, place_well_formed; exact H).
  split; [exact W|]. apply perform_well_formed. exact W.
Qed.

(** A few clicks, a kill and a resume on the 5 x 5 board. *)
Lemma reachable_boards_well_formed_witness :
  well_formed
    (perform_all [Toggle (ByCoord 1 1); Toggle (ByCoord 1 1); Deactivate (2, 2);
                  Resume; SetSpeed 40; Tick; Stop]
       (exec place (Board_init 5 5 default_active_colors "black"%string 20))) /\
  (fst (perform Resume
          (perform_all [Toggle (ByCoord 1 1); Toggle (ByCoord 1 1);
                        Deactivate (2, 2); Resume; SetSpeed 40; Tick; Stop]
             (exec place (Board_init 5 5 default_active_colors "black"%string 20))))
   = Ret tt \/
   exists col row,
     Resume = Toggle (ByCoord col row) /\
     ~ in_grid
         (perform_all [Toggle (ByCoord 1 1); Toggle (ByCoord 1 1);
                       Deactivate (2, 2); Resume; SetSpeed 40; Tick; Stop]
            (exec place (Board_init 5 5 default_active_colors "black"%string 20)))
         row col /\
     perform Resume
       (perform_all [Toggle (ByCoord 1 1); Toggle (ByCoord 1 1);
                     Deactivate (2, 2); Resume; SetSpeed 40; Tick; Stop]
          (exec place (Board_init 5 5 default_active_colors "black"%string 20))) =
     (Raise IndexError,
      perform_all [Toggle (ByCoord 1 1); Toggle (ByCoord 1 1);
                   Deactivate (2, 2); Resume; SetSpeed 40; Tick; Stop]
        (exec place (Board_init 5 5 default_active_colors "black"%string 20)))).
Proof.
  apply (reachable_boards_well_formed 5 5 default_active_colors "black"%string 20).
  discriminate.
Defined.

(** X3: on such a board, when the disabled colour is not one of the
    active colours, a button is alive exactly when its background is
    not the disabled colour: the colours on screen show the alive list. *)
Theorem background_shows_liveness
    (nr nc : Z) (colors : list color) (d : color) (s : Z)
    (acts : list action) (p : button) :
  colors <> [] -> ~ In d colors ->
  (In p (active_cells
           (perform_all acts (exec place (Board_init nr nc colors d s)))) <->
   bg (perform_all acts (exec place (Board_init nr nc colors d s))) p <> d).
Proof.
  intros H Hd.
  pose proof (perform_all_well_formed acts _ (place_well_formed nr nc colors d s H))
    as (_ & _ & _ & Co & Dd).
  destruct (perform_all_colors acts (exec place (Board_init nr nc colors d s)))
    as [E1 E2].
  change (active_colors (exec place (Board_init nr nc colors d s))) with colors in E1.
  change (disabled_color (exec place (Board_init nr nc colors d s))) with d in E2.
  set (b := perform_all acts (exec place (Board_init nr nc colors d s))) in *.
  split.
  - intros Hp K. apply Hd. rewrite <- K, <- E1. apply Co. exact Hp.
  - intros K. destruct (In_active_dec b p) as [Hp|Hp]; [exact Hp|].
    exfalso. apply K. rewrite <- E2. apply Dd. exact Hp.
Qed.

(** The 5 x 5 board after two clicks and a kill, at the killed button. *)
Lemma background_shows_liveness_witness :
  In (1, 1)
    (active_cells
       (perform_all [Toggle (ByCoord 1 1); Toggle (ByCoord 2 2); Deactivate (2, 2)]
          (exec place (Board_init 5 5 default_active_colors "black"%string 20)))) <->
  bg (perform_all [Toggle (ByCoord 1 1); Toggle (ByCoord 2 2); Deactivate (2, 2)]
        (exec place (Board_init 5 5 default_active_colors "black"%string 20)))
     (1, 1) <> "black"%string.
Proof.
  apply (background_shows_liveness 5 5 default_active_colors "black"%string 20).
  - discriminate.
  - simpl. intuition discriminate.
Defined.

Lemma blinker_paused_well_formed : well_formed blinker_paused.
Proof.
  change blinker_paused
    with (perform_all
            [Toggle (ByCoord 1 1); Toggle (ByCoord 2 1); Toggle (ByCoord 3 1)]
            board5).
  apply perform_all_well_formed, place_well_formed. discriminate.
Qed.

Lemma blinker_running_well_formed : well_formed blinker_running.
Proof.
  apply (well_formed_frame blinker_paused); try reflexivity.
  exact blinker_paused_well_formed.
Qed.

Lemma blinker_paused_cells :
  active_cells blinker_paused = [(1, 1); (1, 2); (1, 3)].
Proof. reflexivity. Qed.

Lemma blinker_paused_NoDup : NoDup (active_cells blinker_paused).
Proof.
  destruct blinker_paused_well_formed as (_ & _ & N & _). exact N.
Qed.

(** ** Clicking an alive button through the colours *)

Lemma click_alive (btn : button) (b : Board) (i : Z) :
  well_formed b -> NoDup (active_colors b) -> In btn (active_cells b) ->
  index_of (bg b btn) (active_colors b) = Some i ->
  exists c,
    index_of c (active_colors b) =
    Some ((i + 1) mod Z.of_nat (List.length (active_colors b))) /\
    toggle_cell (ByButton btn) b =
    (Ret tt, set_bg (fun x => if button_eqb x btn then c else bg b x) b).
Proof.
  intros W Nc Hb I.
  destruct (index_of_Some _ _ _ I) as [B _].
  assert (Hm : 0 <= (i + 1) mod Z.of_nat (List.length (active_colors b))
               < Z.of_nat (List.length (active_colors b)))
    by (apply Z.mod_pos_bound; lia).
  destruct (getitem_lt (active_colors b) _ Hm) as [c Gc].
  exists c. split.
  - apply index_of_getitem; [exact Nc | lia | exact Gc].
  - change (toggle_cell (ByButton btn) b) with (toggle_button btn b).
    apply (toggle_button_alive btn b i c);
      [apply contains_In; exact Hb | exact I | exact Gc].
Qed.

Lemma clicks_alive (k : nat) (btn : button) :
  forall (b : Board) (i : Z),
    well_formed b -> NoDup (active_colors b) -> In btn (active_cells b) ->
    index_of (bg b btn) (active_colors b) = Some i ->
    active_cells (clicks k btn b) = active_cells b /\
    active_colors (clicks k btn b) = active_colors b /\
    index_of (bg (clicks k btn b) btn) (active_colors b) =
    Some ((i + Z.of_nat k) mod Z.of_nat (List.length (active_colors b))) /\
    (forall p, p <> btn -> bg (clicks k btn b) p = bg b p).
Proof.
  induction k as [|k IH]; intros b i W Nc Hb I.
  - destruct (index_of_Some _ _ _ I) as [B _].
    split; [reflexivity|]. split; [reflexivity|]. split; [|reflexivity].
    cbn [clicks]. change (Z.of_nat 0) with 0.
    rewrite Z.add_0_r, Z.mod_small by lia. exact I.
  - destruct (click_alive btn b i W Nc Hb I) as [c [Ic R]].
    cbn [clicks]. unfold exec. rewrite R. cbn [snd].
    set (b1 := set_bg (fun x => if button_eqb x btn then c else bg b x) b).
    assert (W1 : well_formed b1).
    { apply well_formed_recolor; [exact W | exact Hb |].
      destruct (index_of_Some _ _ _ Ic) as [_ G]. eapply getitem_Some_In. exact G. }
    assert (I1 : index_of (bg b1 btn) (active_colors b1) =
                 Some ((i + 1) mod Z.of_nat (List.length (active_colors b))))
      by (simpl; rewrite button_eqb_refl; exact Ic).
    destruct (IH b1 _ W1 Nc Hb I1) as (A & C & X & F).
    split; [exact A|]. split; [exact C|]. split.
    + change (active_colors b1) with (active_colors b) in X. rewrite X.
      f_equal. rewrite Zplus_mod_idemp_l. f_equal. lia.
    + intros p Hp. rewrite (F p Hp). simpl.
      apply button_eqb_neq in Hp. rewrite Hp. reflexivity.
Qed.

Lemma index_of_inj (l : list color) (c c' : color) (i : Z) :
  index_of c l = Some i -> index_of c' l = Some i -> c = c'.
Proof.
  intros H H'.
  destruct (index_of_Some _ _ _ H) as [_ G].
  destruct (index_of_Some _ _ _ H') as [_ G']. congruence.
Qed.

(** X4: on a well-formed board whose active colours are all different,
    [k] clicks on an alive button move its colour [k] places on in
    [active_colors], wrapping round, and change neither the alive list
    nor any other button; after as many clicks as there are colours
    the button shows its first colour again. *)
Theorem clicks_cycle_colors (k : nat) (btn : button) (b : Board) (i : Z) :
  well_formed b -> NoDup (active_colors b) -> In btn (active_cells b) ->
  index_of (bg b btn) (active_colors b) = Some i ->
  active_cells (clicks k btn b) = active_cells b /\
  index_of (bg (clicks k btn b) btn) (active_colors b) =
  Some ((i + Z.of_nat k) mod Z.of_nat (List.length (active_colors b))) /\
  (forall p, p <> btn -> bg (clicks k btn b) p = bg b p) /\
  bg (clicks (List.length (active_colors b)) btn b) btn = bg b btn.
Proof.
  intros W Nc Hb I.
  destruct (clicks_alive k btn b i W Nc Hb I) as (A & _ & X & F).
  split; [exact A|]. split; [exact X|]. split; [exact F|].
  destruct (clicks_alive (List.length (active_colors b)) btn b i W Nc Hb I)
    as (_ & _ & X' & _).
  destruct (index_of_Some _ _ _ I) as [B _].
  rewrite <- (Z.mul_1_l (Z.of_nat (List.length (active_colors b)))) in X' at 1.
  rewrite Z_mod_plus_full, Z.mod_small in X' by lia.
  eapply index_of_inj; [exact X' | exact I].
Qed.

(** The first blinker button on the paused 5 x 5 board, seven clicks. *)
Lemma clicks_cycle_colors_witness :
  active_cells (clicks 7 (1, 1) blinker_paused) = active_cells blinker_paused /\
  index_of (bg (clicks 7 (1, 1) blinker_paused) (1, 1))
    (active_colors blinker_paused) =
  Some ((0 + Z.of_nat 7) mod
        Z.of_nat (List.length (active_colors blinker_paused))) /\
  (forall p, p <> (1, 1) ->
             bg (clicks 7 (1, 1) blinker_paused) p = bg blinker_paused p) /\
  bg (clicks (List.length (active_colors blinker_paused)) (1, 1) blinker_paused)
     (1, 1) = bg blinker_paused (1, 1).
Proof.
  apply (clicks_cycle_colors 7 (1, 1) blinker_paused 0).
  - exact blinker_paused_well_formed.
  - change (active_colors blinker_paused) with default_active_colors.
    repeat constructor; simpl; intuition discriminate.
  - rewrite blinker_paused_cells. left. reflexivity.
  - reflexivity.
Defined.

(** ** Killing a button *)

Lemma remove_first_app_last (x : button) (l : list button) :
  ~ In x l -> remove_first x (l ++ [x]) = l.
Proof.
  induction l as [|y l IH]; simpl; intros H.
  - rewrite button_eqb_refl. reflexivity.
  - destruct (button_eqb x y) eqn:E.
    + apply button_eqb_eq in E. subst. exfalso. apply H. left. reflexivity.
    + f_equal. apply IH. intros K. apply H. right. exact K.
Qed.

(** X5: on a well-formed board, clicking a dead button and then killing
    it gives the board back: the same alive list in the same order, the
    same colour on every button, the same configuration and timers,
    and neither call raises. *)
Theorem toggle_then_deactivate (btn : button) (b : Board) :
  well_formed b -> ~ In btn (active_cells b) ->
  fst (toggle_cell (ByButton btn) b) = Ret tt /\
  fst (deactivate_cell btn (exec (toggle_cell (ByButton btn)) b)) = Ret tt /\
  active_cells (exec (deactivate_cell btn) (exec (toggle_cell (ByButton btn)) b))
  = active_cells b /\
  (forall p, bg (exec (deactivate_cell btn) (exec (toggle_cell (ByButton btn)) b)) p
             = bg b p) /\
  setup (exec (deactivate_cell btn) (exec (toggle_cell (ByButton btn)) b))
  = setup b /\
  timers (exec (deactivate_cell btn) (exec (toggle_cell (ByButton btn)) b))
  = timers b.
Proof.
  intros W Hb. pose proof W as (_ & Hc & _ & _ & Dd).
  destruct (getitem_first _ Hc) as [c Gc].
  unfold exec.
  change (toggle_cell (ByButton btn) b) with (toggle_button btn b).
  rewrite (toggle_button_dead btn b c (proj2 (contains_not_In _ _) Hb) Gc).
  cbn [fst snd]. rewrite deactivate_cell_active.
  cbn [fst snd active_cells bg timers setup nrows ncols active_colors
       disabled_color speed cells _stopped set_bg set_active_cells].
  rewrite (remove_first_app_last _ _ Hb).
  repeat split.
  intros p. destruct (button_eqb p btn) eqn:E; [|reflexivity].
  apply button_eqb_eq in E. subst. symmetry. apply Dd. exact Hb.
Qed.

(** A click and a kill at (3, 3) on the paused blinker board. *)
Lemma toggle_then_deactivate_witness :
  active_cells (exec (deactivate_cell (3, 3))
                  (exec (toggle_cell (ByButton (3, 3))) blinker_paused))
  = active_cells blinker_paused.
Proof.
  apply (toggle_then_deactivate (3, 3) blinker_paused).
  - exact blinker_paused_well_formed.
  - rewrite blinker_paused_cells. simpl. intuition congruence.
Defined.

(** X6: [deactivate_cell] never raises and gives the button the
    disabled colour; when no button is twice in [active_cells], the
    button is dead afterwards and every other button is alive exactly
    when it was before, in the same order. *)
Theorem deactivate_cell_kills (btn : button) (b : Board) :
  fst (deactivate_cell btn b) = Ret tt /\
  bg (exec (deactivate_cell btn) b) btn = disabled_color b /\
  (forall p, p <> btn -> bg (exec (deactivate_cell btn) b) p = bg b p) /\
  (NoDup (active_cells b) ->
   ~ In btn (active_cells (exec (deactivate_cell btn) b)) /\
   (forall p, p <> btn ->
      (In p (active_cells (exec (deactivate_cell btn) b)) <->
       In p (active_cells b))) /\
   active_cells (exec (deactivate_cell btn) (exec (deactivate_cell btn) b)) =
   active_cells (exec (deactivate_cell btn) b)).
Proof.
  unfold exec. rewrite deactivate_cell_active. cbn [fst snd].
  split; [reflexivity|]. split; [simpl; rewrite button_eqb_refl; reflexivity|].
  split.
  - intros p Hp. simpl. apply button_eqb_neq in Hp. rewrite Hp. reflexivity.
  - intros N. rewrite deactivate_cell_active. simpl.
    assert (K : ~ In btn (remove_first btn (active_cells b)))
      by (rewrite In_remove_first_NoDup by exact N; tauto).
    split; [exact K|]. split.
    + intros p Hp. rewrite In_remove_first_NoDup by exact N. tauto.
    + apply remove_first_not_In. exact K.
Qed.

(** The middle blinker button killed on the paused 5 x 5 board. *)
Lemma deactivate_cell_kills_witness :
  ~ In (1, 2) (active_cells (exec (deactivate_cell (1, 2)) blinker_paused)).
Proof.
  exact (proj1 (proj2 (proj2 (proj2 (deactivate_cell_kills (1, 2) blinker_paused)))
                  blinker_paused_NoDup)).
Defined.

(** ** More on the evolution step *)

Lemma length_filter_lt (f : button -> bool) (x : button) (l : list button) :
  In x l -> f x = false ->
  (List.length (filter f l) < List.length l)%nat.
Proof.
  induction l as [|y l IH]; simpl; [tauto|].
  intros [->|H] E.
  - rewrite E. pose proof (filter_length_le f l). lia.
  - specialize (IH H E). destruct (f y); simpl; lia.
Qed.

Lemma not_In_examined_self (b : Board) (p : button) :
  ~ In p (examined b (fst p) (snd p)).
Proof.
  rewrite In_examined. intros (_ & _ & H). apply H. destruct p; reflexivity.
Qed.

Lemma neighbors_le (b : Board) (p : button) :
  NoDup (active_cells b) ->
  neighbors b p <= Z.of_nat (List.length (active_cells b)) /\
  (In p (active_cells b) ->
   neighbors b p <= Z.of_nat (List.length (active_cells b)) - 1).
Proof.
  intros N. unfold neighbors, alive_among.
  rewrite (length_filter_contains_sym _ _
             (NoDup_examined b (fst p) (snd p)) N).
  split.
  - pose proof (filter_length_le
                  (fun y => contains y (examined b (fst p) (snd p)))
                  (active_cells b)). lia.
  - intros H.
    pose proof (length_filter_lt
                  (fun y => contains y (examined b (fst p) (snd p)))
                  p (active_cells b) H
                  (proj2 (contains_not_In _ _) (not_In_examined_self b p))).
    lia.
Qed.

Lemma nil_when_no_member {A : Type} (l : list A) :
  (forall a, ~ In a l) -> l = [].
Proof.
  destruct l as [|a l]; [reflexivity|]. intros H. exfalso.
  apply (H a). left. reflexivity.
Qed.

(** X7: on a placed, running board with no button twice alive and all
    alive buttons on the grid, when at most two buttons are alive, one
    call of [update_cells] returns and leaves nothing alive: nothing can
    be born from fewer than three cells and none of them has two
    neighbours. *)
Theorem few_cells_die_out (b : Board) :
  grid_ok b -> active_colors b <> [] -> _stopped b = false ->
  NoDup (active_cells b) -> alive_in_grid b ->
  (List.length (active_cells b) <= 2)%nat ->
  fst (update_cells b) = Ret tt /\ active_cells (exec update_cells b) = [].
Proof.
  intros G Hc Hs N Hg L.
  destruct (update_cells_running b G Hc Hs) as [b' [R [A _]]].
  unfold exec. rewrite R. split; [reflexivity|]. cbn [snd]. rewrite A.
  apply nil_when_no_member. intros p Hp.
  apply (In_next_alive b p N) in Hp. destruct Hp as [Hp Hd].
  destruct (neighbors_le b p N) as [Le Le1].
  destruct Hp as [Hp|[_ Hb]].
  - apply Hd. split; [apply In_all_cells, Hg; exact Hp|].
    apply dies_true_iff. specialize (Le1 Hp). split; [exact Hp | lia].
  - apply born_true_iff in Hb. lia.
Qed.

(** Two of the three blinker buttons on the running 5 x 5 board. *)
Lemma few_cells_die_out_witness :
  fst (update_cells (exec (deactivate_cell (1, 3)) blinker_running)) = Ret tt /\
  active_cells
    (exec update_cells (exec (deactivate_cell (1, 3)) blinker_running)) = [].
Proof.
  apply few_cells_die_out.
  - reflexivity.
  - discriminate.
  - reflexivity.
  - repeat constructor; simpl; intuition congruence.
  - intros p Hp. simpl in Hp. unfold in_grid.
    destruct Hp as [<-|[<-|[]]]; vm_compute; repeat split; congruence.
  - vm_compute. repeat constructor.
Defined.



(** X9: on a placed board the scan of [update_cells] changes nothing
    and returns two lists without repetitions and with no button in
    both: [cells_to_activate] holds exactly the dead grid positions
    with three alive neighbours, [cells_to_deactivate] exactly the
    alive grid positions with neither two nor three.  The number of
    alive neighbours of a position is the number of alive buttons among
    its examined positions, the positions of the grid one step away in
    any of the eight directions, each once; it is the count
    [get_neighbors_count] returns. *)
Theorem scan_lists (b : Board) :
  grid_ok b ->
  exists births deaths,
    scan b = (Ret (births, deaths), b) /\
    NoDup births /\ NoDup deaths /\
    (forall p, In p births -> ~ In p deaths) /\
    (forall p, In p births <->
       in_grid b (fst p) (snd p) /\ ~ In p (active_cells b) /\
       alive_among (active_cells b) (examined b (fst p) (snd p)) = 3) /\
    (forall p, In p deaths <->
       in_grid b (fst p) (snd p) /\ In p (active_cells b) /\
       alive_among (active_cells b) (examined b (fst p) (snd p)) <> 2 /\
       alive_among (active_cells b) (examined b (fst p) (snd p)) <> 3) /\
    (forall row col,
       get_neighbors_count row col b =
       (Ret (alive_among (active_cells b) (examined b row col)), b)) /\
    (forall row col, NoDup (examined b row col)) /\
    (forall row col p,
       In p (examined b row col) <->
       in_grid b (fst p) (snd p) /\
       (row - 1 <= fst p <= row + 1 /\ col - 1 <= snd p <= col + 1) /\
       p <> (row, col)).
Proof.
  intros G.
  exists (filter (born b) (all_cells b)), (filter (dies b) (all_cells b)).
  split; [apply scan_eq; exact G|].
  split; [apply NoDup_filter, NoDup_all_cells|].
  split; [apply NoDup_filter, NoDup_all_cells|].
  split; [|split; [|split; [|split; [|split]]]].
  - intros p Hb Hd. apply filter_In in Hb. apply filter_In in Hd.
    destruct Hb as [_ Hb]. destruct Hd as [_ Hd].
    rewrite (born_not_dies b p Hb) in Hd. discriminate.
  - intros p. rewrite filter_In, In_all_cells, born_true_iff.
    unfold neighbors. tauto.
  - intros p. rewrite filter_In, In_all_cells, dies_true_iff.
    unfold neighbors. tauto.
  - intros row col. apply get_neighbors_count_eq. exact G.
  - intros row col. apply NoDup_examined.
  - intros row col p. apply In_examined.
Qed.

(** The scan of the running blinker. *)
Lemma scan_lists_witness :
  exists births deaths,
    scan blinker_running = (Ret (births, deaths), blinker_running) /\
    NoDup births /\ NoDup deaths /\
    (forall p, In p births -> ~ In p deaths) /\
    (forall p, In p births <->
       in_grid blinker_running (fst p) (snd p) /\
       ~ In p (active_cells blinker_running) /\
       alive_among (active_cells blinker_running)
         (examined blinker_running (fst p) (snd p)) = 3) /\
    (forall p, In p deaths <->
       in_grid blinker_running (fst p) (snd p) /\
       In p (active_cells blinker_running) /\
       alive_among (active_cells blinker_running)
         (examined blinker_running (fst p) (snd p)) <> 2 /\
       alive_among (active_cells blinker_running)
         (examined blinker_running (fst p) (snd p)) <> 3) /\
    (forall row col,
       get_neighbors_count row col blinker_running =
       (Ret (alive_among (active_cells blinker_running)
               (examined blinker_running row col)), blinker_running)) /\
    (forall row col, NoDup (examined blinker_running row col)) /\
    (forall row col p,
       In p (examined blinker_running row col) <->
       in_grid blinker_running (fst p) (snd p) /\
       (row - 1 <= fst p <= row + 1 /\ col - 1 <= snd p <= col + 1) /\
       p <> (row, col)).
Proof. exact (scan_lists blinker_running blinker_running_grid_ok). Defined.

(** ** [place] *)

Lemma concat_make_grid (nr nc : Z) :
  List.concat (make_grid nr nc) =
  flat_map (fun y => map (fun x => (y, x)) (range 0 nc)) (range 0 nr).
Proof. unfold make_grid. symmetry. apply flat_map_concat_map. Qed.

(** X10: on a board as [Board.__init__] makes it, whatever its
    arguments, [place] never raises; it builds [max(0, nrows)] rows of
    [max(0, ncols)] buttons each, all different, the button of a grid
    position being found at that position, all with the disabled
    colour; nothing is alive, the board is stopped, and the one timer
    asked for, of 1000 ms, has a callback that changes nothing and asks
    for no further timer: the simulation does not start by itself. *)
Theorem place_builds_grid
    (nr nc : Z) (colors : list color) (d : color) (s : Z) :
  fst (place (Board_init nr nc colors d s)) = Ret tt /\
  Z.of_nat (List.length (cells (exec place (Board_init nr nc colors d s))))
  = Z.max 0 nr /\
  (forall r, In r (cells (exec place (Board_init nr nc colors d s))) ->
             Z.of_nat (List.length r) = Z.max 0 nc) /\
  (forall row col, 0 <= row < nr -> 0 <= col < nc ->
     cell_at row col (exec place (Board_init nr nc colors d s)) =
     (Ret (row, col), exec place (Board_init nr nc colors d s))) /\
  NoDup (List.concat (cells (exec place (Board_init nr nc colors d s)))) /\
  (forall p, bg (exec place (Board_init nr nc colors d s)) p = d) /\
  active_cells (exec place (Board_init nr nc colors d s)) = [] /\
  _stopped (exec place (Board_init nr nc colors d s)) = true /\
  timers (exec place (Board_init nr nc colors d s)) = [1000] /\
  tick (exec place (Board_init nr nc colors d s)) =
  (Ret tt, exec place (Board_init nr nc colors d s)).
Proof.
  split; [reflexivity|].
  split; [apply make_grid_length|].
  split.
  { intros r Hr.
    change (cells (exec place (Board_init nr nc colors d s)))
      with (make_grid nr nc) in Hr.
    unfold make_grid in Hr. apply in_map_iff in Hr. destruct Hr as [y [<- _]].
    apply grid_row_length. }
  split.
  { intros row col Hr Hc. apply cell_at_in_grid; [reflexivity | split; assumption]. }
  split.
  { change (cells (exec place (Board_init nr nc colors d s)))
      with (make_grid nr nc).
    rewrite concat_make_grid. apply NoDup_pairs; apply NoDup_range. }
  split; [reflexivity|]. split; [reflexivity|]. split; [reflexivity|].
  split; [reflexivity|].
  apply update_cells_stopped. reflexivity.
Qed.

(** ** The pause button *)

Lemma change_pause_state_play (b : Board) :
  change_pause_state (mkControllerPanel b [pause_symbol; play_symbol] play_symbol) =
  (fst (resume b),
   mkControllerPanel (exec resume b) [pause_symbol; play_symbol] pause_symbol).
Proof.
  unfold change_pause_state. cbn [pause_button_text symbols board].
  change (index_of play_symbol [pause_symbol; play_symbol]) with (Some 1).
  cbv beta iota zeta.
  change (Z.of_nat (List.length [pause_symbol; play_symbol]) =? 0) with false.
  cbv beta iota.
  change ((1 + 1) mod Z.of_nat (List.length [pause_symbol; play_symbol])) with 0.
  change (getitem [pause_symbol; play_symbol] 0) with (Some pause_symbol).
  change (0 =? 0) with true. cbv beta iota.
  unfold exec. destruct (resume b); reflexivity.
Qed.

Lemma change_pause_state_pause (b : Board) :
  change_pause_state (mkControllerPanel b [pause_symbol; play_symbol] pause_symbol) =
  (Ret tt,
   mkControllerPanel (exec stop b) [pause_symbol; play_symbol] play_symbol).
Proof.
  unfold change_pause_state. cbn [pause_button_text symbols board].
  change (index_of pause_symbol [pause_symbol; play_symbol]) with (Some 0).
  cbv beta iota zeta.
  change (Z.of_nat (List.length [pause_symbol; play_symbol]) =? 0) with false.
  cbv beta iota.
  change ((0 + 1) mod Z.of_nat (List.length [pause_symbol; play_symbol])) with 1.
  change (getitem [pause_symbol; play_symbol] 1) with (Some play_symbol).
  change (1 =? 0) with false. cbv beta iota.
  reflexivity.
Qed.

Lemma resume_clears_stopped (b : Board) : _stopped (exec resume b) = false.
Proof.
  unfold exec, resume, bind, modify.
  apply (keeps_update_cells (fun b' => _stopped b' = false)); auto.
Qed.

(** X11: the symbol on the pause button and the stopped flag of the
    board go together.  A new panel on a stopped board shows the play
    symbol; a press on the play symbol shows the pause symbol and calls
    [resume], a press on the pause symbol shows the play symbol and
    calls [stop]; and after a press, also one whose [resume] raised,
    the button shows the pause symbol exactly when the board is not
    stopped. *)
Theorem change_pause_state_in_sync :
  (forall b, _stopped b = true -> in_sync (ControllerPanel_init b)) /\
  (forall p, in_sync p ->
     in_sync (snd (change_pause_state p)) /\
     (pause_button_text p = play_symbol ->
      change_pause_state p =
      (fst (resume (board p)),
       mkControllerPanel (exec resume (board p)) (symbols p) pause_symbol)) /\
     (pause_button_text p = pause_symbol ->
      change_pause_state p =
      (Ret tt, mkControllerPanel (exec stop (board p)) (symbols p) play_symbol))).
Proof.
  split.
  - intros b H. split; [reflexivity|]. right. split; [reflexivity | exact H].
  - intros [b syms txt] [Hs Ht]. cbn [symbols pause_button_text board] in *.
    subst syms.
    assert (Ne : pause_symbol <> play_symbol) by discriminate.
    destruct Ht as [[-> Hb]|[-> Hb]].
    + rewrite change_pause_state_pause. cbn [snd].
      split; [|split; [intros K; congruence | intros _; reflexivity]].
      split; [reflexivity|]. right. split; reflexivity.
    + rewrite change_pause_state_play. cbn [snd].
      split; [|split; [intros _; reflexivity | intros K; congruence]].
      split; [reflexivity|]. left. split; [reflexivity|].
      apply resume_clears_stopped.
Qed.

(** A new panel on the paused blinker board, pressed once. *)
Lemma change_pause_state_in_sync_witness :
  in_sync (ControllerPanel_init blinker_paused) /\
  in_sync (snd (change_pause_state (ControllerPanel_init blinker_paused))).
Proof.
  assert (H : in_sync (ControllerPanel_init blinker_paused))
    by (apply (proj1 change_pause_state_in_sync); reflexivity).
  split; [exact H|].
  apply (proj2 change_pause_state_in_sync _ H).
Defined.

(** ** Timers *)

Lemma length_without_nth {A : Type} (l : list A) (k : nat) :
  (k < List.length l)%nat ->
  S (List.length (firstn k l ++ skipn (S k) l)) = List.length l.
Proof.
  intros H. rewrite length_app, length_firstn, length_skipn. lia.
Qed.

(** X12: [stop] cancels no timer and [resume] always asks for a new
    one, so on a well-formed board: a timer that comes due while the
    board runs is replaced by exactly one new timer, with the delay of
    the current speed; a timer that comes due while the board is stopped
    is dropped without any change to the alive list; and [stop] followed
    by [resume] before a pending timer has come due leaves one more
    timer pending than before. *)
Theorem timers_of_stop_and_resume (b : Board) (k : nat) :
  well_formed b -> (k < List.length (timers b))%nat ->
  (_stopped b = false ->
   fst (fire k b) = Ret tt /\
   timers (snd (fire k b)) =
   (firstn k (timers b) ++ skipn (S k) (timers b)) ++ [delay_of (speed b)] /\
   List.length (timers (snd (fire k b))) = List.length (timers b)) /\
  (_stopped b = true ->
   fst (fire k b) = Ret tt /\
   S (List.length (timers (snd (fire k b)))) = List.length (timers b) /\
   active_cells (snd (fire k b)) = active_cells b) /\
  timers (exec stop b) = timers b /\
  List.length (timers (exec resume (exec stop b))) = S (List.length (timers b)).
Proof.
  intros W Hk. pose proof W as (G & Hc & _).
  destruct (nth_error (timers b) k) as [d|] eqn:E;
    [|apply nth_error_None in E; lia].
  split; [|split; [|split]].
  - intros Hs. unfold fire. rewrite E.
    destruct (update_cells_running
                (set_timers (firstn k (timers b) ++ skipn (S k) (timers b)) b)
                G Hc Hs) as [b' [R [_ [Ht _]]]].
    rewrite R. cbn [fst snd]. split; [reflexivity|]. split; [exact Ht|].
    rewrite Ht. cbn [timers set_timers]. rewrite length_app. cbn [List.length].
    pose proof (length_without_nth (timers b) k Hk). lia.
  - intros Hs. unfold fire. rewrite E.
    rewrite update_cells_stopped by exact Hs. cbn [fst snd].
    split; [reflexivity|]. split; [|reflexivity].
    apply length_without_nth. exact Hk.
  - reflexivity.
  - destruct (update_cells_running (set_stopped false b) G Hc eq_refl)
      as [b' [R [_ [Ht _]]]].
    unfold exec, resume, stop, bind, modify. cbn [snd].
    change (set_stopped false (set_stopped true b)) with (set_stopped false b).
    rewrite R. cbn [snd]. rewrite Ht. cbn [timers set_stopped].
    rewrite length_app. cbn [List.length]. lia.
Qed.

(** The timer of [place] comes due on the running blinker board. *)
Lemma timers_of_stop_and_resume_witness :
  List.length (timers (snd (fire 0 blinker_running))) =
  List.length (timers blinker_running).
Proof.
  assert (K : (0 < List.length (timers blinker_running))%nat)
    by (change (timers blinker_running) with [1000]; simpl; lia).
  apply (proj1 (timers_of_stop_and_resume blinker_running 0
                  blinker_running_well_formed K)).
  reflexivity.
Defined.

(** ** A board that was never placed *)

Lemma range_cons (lo hi : Z) : lo < hi -> range lo hi = lo :: range (lo + 1) hi.
Proof.
  intros H. unfold range.
  replace (Z.to_nat (hi - lo)) with (S (Z.to_nat (hi - (lo + 1)))) by lia.
  cbn [seq map]. f_equal; [lia|].
  rewrite <- seq_shift, map_map. apply map_ext. intros k. lia.
Qed.

Lemma getitem_nil {A : Type} (i : Z) : getitem (@nil A) i = None.
Proof.
  unfold getitem. cbn [List.length].
  destruct (0 <=? i) eqn:E; [destruct (Z.to_nat i); reflexivity|].
  change (- Z.of_nat 0) with 0. rewrite E. reflexivity.
Qed.

Lemma cell_at_unplaced (row col : Z) (b : Board) :
  cells b = [] -> cell_at row col b = (Raise IndexError, b).
Proof.
  intros H. unfold cell_at, bind, gets. rewrite H, getitem_nil. reflexivity.
Qed.

Lemma for_each_raises {X A : Type} (xs : list X) (body : X -> A -> M A)
    (E : exn) :
  (forall x a b e, fst (body x a b) = Raise e -> e = E) ->
  forall acc b e, fst (for_each xs body acc b) = Raise e -> e = E.
Proof.
  intros Hb. induction xs as [|x xs IH]; intros acc b e H; [discriminate|].
  cbn [for_each] in H. unfold bind in H.
  specialize (Hb x acc b).
  destruct (body x acc b) as [[a|e'] b']; cbn [fst] in *.
  - eapply IH. exact H.
  - inversion H; subst. apply Hb. reflexivity.
Qed.

Lemma count_step_raises (row col y x count : Z) (b : Board) (e : exn) :
  fst (count_step row col y x count b) = Raise e -> e = IndexError.
Proof.
  unfold count_step. destruct (negb _); [|discriminate].
  unfold bind at 1. pose proof (cell_at_raises y x b) as R.
  destruct (cell_at y x b) as [[c|e'] b']; cbn [fst] in *.
  - unfold bind, gets. destruct (contains c (active_cells b')); discriminate.
  - intros H. inversion H; subst. apply R. reflexivity.
Qed.

Lemma get_neighbors_count_raises (row col : Z) (b : Board) (e : exn) :
  fst (get_neighbors_count row col b) = Raise e -> e = IndexError.
Proof.
  unfold get_neighbors_count, bind at 1 2, gets at 1 2.
  apply for_each_raises. intros y a b0 e0.
  apply for_each_raises. intros x a0 b1 e1. apply count_step_raises.
Qed.

Lemma scan_step_unplaced (row col : Z) (acc : list button * list button)
    (b : Board) :
  cells b = [] -> scan_step row col acc b = (Raise IndexError, b).
Proof.
  intros H. unfold scan_step. unfold bind at 1.
  pose proof (readonly_get_neighbors_count row col b) as Ro.
  pose proof (get_neighbors_count_raises row col b) as Rx.
  destruct (get_neighbors_count row col b) as [[n|e] b0];
    cbn [fst snd] in *; subst b0.
  - unfold bind at 1. rewrite (cell_at_unplaced row col b H). reflexivity.
  - rewrite (Rx e eq_refl). reflexivity.
Qed.

Lemma scan_unplaced (b : Board) :
  cells b = [] -> 1 <= nrows b -> 1 <= ncols b ->
  scan b = (Raise IndexError, b).
Proof.
  intros H Hr Hc. unfold scan, bind at 1 2, gets at 1 2.
  rewrite (range_cons 0 (nrows b)), (range_cons 0 (ncols b)) by lia.
  cbn [for_each]. unfold bind at 1. unfold bind at 1.
  rewrite (scan_step_unplaced 0 0 _ b H). reflexivity.
Qed.

(** X13: on a board whose grid was never built ([cells] still empty,
    as [Board.__init__] leaves it) and whose dimensions are at least
    1 x 1, a toggle by column and row raises [IndexError] and changes
    nothing; a running [update_cells] raises [IndexError] at the first
    position of the scan, changing nothing and asking for no timer; and
    [resume] raises the same way, leaving the board marked as running. *)
Theorem unplaced_board_raises (b : Board) :
  cells b = [] -> 1 <= nrows b -> 1 <= ncols b ->
  (forall col row, toggle_cell (ByCoord col row) b = (Raise IndexError, b)) /\
  (_stopped b = false -> update_cells b = (Raise IndexError, b)) /\
  resume b = (Raise IndexError, set_stopped false b).
Proof.
  intros H Hr Hc.
  assert (U : forall b0, cells b0 = [] -> 1 <= nrows b0 -> 1 <= ncols b0 ->
                         _stopped b0 = false ->
                         update_cells b0 = (Raise IndexError, b0)).
  { intros b0 H0 Hr0 Hc0 Hs. unfold update_cells. unfold bind at 1, gets at 1.
    rewrite Hs. unfold bind at 1. rewrite (scan_unplaced b0 H0 Hr0 Hc0).
    reflexivity. }
  split; [|split].
  - intros col row. unfold toggle_cell, resolve, bind.
    rewrite (cell_at_unplaced row col b H). reflexivity.
  - apply U; assumption.
  - unfold resume, bind, modify.
    apply (U (set_stopped false b)); [exact H | exact Hr | exact Hc | reflexivity].
Qed.

(** The board [Board()] before [place]. *)
Lemma unplaced_board_raises_witness :
  resume Board_default = (Raise IndexError, set_stopped false Board_default).
Proof.
  apply (unplaced_board_raises Board_default); [reflexivity | simpl; lia | simpl; lia].
Defined.

(** ** The block, a still life *)

Lemma NoDup_block (r c : Z) : NoDup (block r c).
Proof.
  unfold block.
  repeat constructor; simpl; intros H;
    repeat (destruct H as [H|H]); try inversion H; lia.
Qed.

Lemma contains_examined_iff (b : Board) (row col : Z) (q : button) :
  contains q (examined b row col) = true <->
  (0 <= fst q < nrows b /\ 0 <= snd q < ncols b) /\
  (row - 1 <= fst q <= row + 1 /\ col - 1 <= snd q <= col + 1) /\
  (fst q <> row \/ snd q <> col).
Proof.
  rewrite contains_In, In_examined. destruct q as [y x]. cbn [fst snd].
  assert (E : (y, x) <> (row, col) <-> (y <> row \/ x <> col)).
  { split.
    - intros H. destruct (Z.eq_dec y row) as [->|]; [|left; assumption].
      destruct (Z.eq_dec x col) as [->|]; [|right; assumption].
      exfalso. apply H. reflexivity.
    - intros [H|H] K; inversion K; contradiction. }
  rewrite E. tauto.
Qed.

Ltac settle_membership H :=
  match type of H with
  | true = true <-> ?P =>
      let K := fresh "K" in
      assert (K : P) by (apply H; reflexivity); clear H
  | false = true <-> ?P =>
      let K := fresh "K" in
      assert (K : ~ P) by (let J := fresh in intros J; apply H in J; discriminate J);
      clear H
  end.

Lemma block_neighbors (nr nc r c y x : Z) :
  0 <= r -> r + 1 < nr -> 0 <= c -> c + 1 < nc ->
  (In (y, x) (block r c) ->
   neighbors (bare_board nr nc (block r c)) (y, x) = 3) /\
  (~ In (y, x) (block r c) ->
   neighbors (bare_board nr nc (block r c)) (y, x) <> 3).
Proof.
  intros Hr0 Hr1 Hc0 Hc1.
  unfold neighbors, alive_among. cbn [fst snd active_cells bare_board].
  rewrite (length_filter_contains_sym _ _
             (NoDup_examined (bare_board nr nc (block r c)) y x)
             (NoDup_block r c)).
  pose proof (contains_examined_iff (bare_board nr nc (block r c)) y x (r, c)) as H1.
  pose proof (contains_examined_iff (bare_board nr nc (block r c)) y x (r, c + 1)) as H2.
  pose proof (contains_examined_iff (bare_board nr nc (block r c)) y x (r + 1, c)) as H3.
  pose proof (contains_examined_iff (bare_board nr nc (block r c)) y x (r + 1, c + 1))
    as H4.
  cbn [fst snd nrows ncols bare_board] in H1, H2, H3, H4.
  unfold block. cbn [filter In].
  assert (P : forall u v : Z, (u, v) = (y, x) <-> u = y /\ v = x)
    by (intros u v; split; [intros J; inversion J; auto | intros [-> ->]; reflexivity]).
  rewrite !P.
  destruct (contains (r, c) _); settle_membership H1;
    destruct (contains (r, c + 1) _); settle_membership H2;
    destruct (contains (r + 1, c) _); settle_membership H3;
    destruct (contains (r + 1, c + 1) _); settle_membership H4;
    cbn [List.length]; lia.
Qed.

Lemma next_alive_block (nr nc r c : Z) :
  0 <= r -> r + 1 < nr -> 0 <= c -> c + 1 < nc ->
  same_cells (next_alive (bare_board nr nc (block r c))) (block r c).
Proof.
  intros Hr0 Hr1 Hc0 Hc1 [y x].
  rewrite In_next_alive by apply NoDup_block.
  rewrite born_true_iff, dies_true_iff.
  destruct (block_neighbors nr nc r c y x Hr0 Hr1 Hc0 Hc1) as [N1 N2].
  destruct (In_active_dec (bare_board nr nc (block r c)) (y, x)) as [D|D];
    cbn [active_cells bare_board] in *.
  - specialize (N1 D). split; [intros _; exact D|]. intros _.
    split; [left; exact D|]. intros (_ & _ & _ & K). contradiction.
  - specialize (N2 D). split; [|intros K; contradiction].
    intros [[K|(_ & _ & K)] _]; contradiction.
Qed.

(** One call of [update_cells] on a placed, running board whose alive
    buttons are those of [from], when the step of [from] gives [to]. *)
Lemma placed_running_step (from to : list button) (b : Board) :
  NoDup from ->
  same_cells (next_alive (bare_board (nrows b) (ncols b) from)) to ->
  grid_ok b -> active_colors b <> [] -> _stopped b = false ->
  NoDup (active_cells b) -> same_cells (active_cells b) from ->
  fst (tick b) = Ret tt /\
  grid_ok (exec tick b) /\ active_colors (exec tick b) <> [] /\
  _stopped (exec tick b) = false /\ NoDup (active_cells (exec tick b)) /\
  nrows (exec tick b) = nrows b /\ ncols (exec tick b) = ncols b /\
  same_cells (active_cells (exec tick b)) to.
Proof.
  intros Nf St G Hcol Hs N Sc.
  destruct (update_cells_running b G Hcol Hs) as [b' [R [A [_ C]]]].
  unfold tick, exec. rewrite R. cbn [fst snd].
  unfold same_config in C. simpl in C.
  destruct C as (C1 & C2 & C3 & _ & _ & C6 & C7 & _).
  split; [reflexivity|].
  split; [unfold grid_ok; rewrite C1, C2, C6; exact G|].
  split; [rewrite C3; exact Hcol|].
  split; [rewrite C7; exact Hs|].
  split; [rewrite A; apply NoDup_next_alive; exact N|].
  split; [exact C1|]. split; [exact C2|].
  rewrite A. eapply same_cells_trans; [|exact St].
  apply next_alive_ext; try assumption; reflexivity.
Qed.

Lemma block_stays (r c : Z) (k : nat) :
  forall b,
    0 <= r -> r + 1 < nrows b -> 0 <= c -> c + 1 < ncols b ->
    grid_ok b -> active_colors b <> [] -> _stopped b = false ->
    NoDup (active_cells b) -> same_cells (active_cells b) (block r c) ->
    same_cells (active_cells (ticks k b)) (block r c).
Proof.
  induction k as [|k IH]; intros b Hr0 Hr1 Hc0 Hc1 G Hcol Hs N Sc; [exact Sc|].
  destruct (placed_running_step (block r c) (block r c) b (NoDup_block r c)
              (next_alive_block _ _ r c Hr0 Hr1 Hc0 Hc1) G Hcol Hs N Sc)
    as (_ & G' & Hcol' & Hs' & N' & Er & Ec & Sc').
  cbn [ticks]. apply IH; try assumption; [rewrite Er | rewrite Ec]; assumption.
Qed.

(** X14: a 2 x 2 block of alive buttons, anywhere on a grid of any
    size, with nothing else alive, is a still life: on a placed, running
    board [update_cells] returns and leaves exactly the four buttons of
    the block alive, call after call. *)
Theorem block_is_still_life (b : Board) (r c : Z) (k : nat) :
  0 <= r -> r + 1 < nrows b -> 0 <= c -> c + 1 < ncols b ->
  grid_ok b -> active_colors b <> [] -> _stopped b = false ->
  NoDup (active_cells b) -> same_cells (active_cells b) (block r c) ->
  fst (update_cells b) = Ret tt /\
  same_cells (active_cells (exec update_cells b)) (block r c) /\
  same_cells (active_cells (ticks k b)) (block r c).
Proof.
  intros Hr0 Hr1 Hc0 Hc1 G Hcol Hs N Sc.
  destruct (placed_running_step (block r c) (block r c) b (NoDup_block r c)
              (next_alive_block _ _ r c Hr0 Hr1 Hc0 Hc1) G Hcol Hs N Sc)
    as (R & _ & _ & _ & _ & _ & _ & Sc').
  split; [exact R|]. split; [exact Sc'|].
  apply block_stays; assumption.
Qed.

(** A block clicked into the lower right corner of the 5 x 5 board. *)
Lemma block_is_still_life_witness :
  same_cells
    (active_cells
       (ticks 6
          (set_stopped false
             (perform_all [Toggle (ByCoord 4 4); Toggle (ByCoord 3 3);
                           Toggle (ByCoord 4 3); Toggle (ByCoord 3 4)] board5))))
    (block 3 3).
Proof.
  apply (block_is_still_life
           (set_stopped false
              (perform_all [Toggle (ByCoord 4 4); Toggle (ByCoord 3 3);
                            Toggle (ByCoord 4 3); Toggle (ByCoord 3 4)] board5))
           3 3 6).
  - lia.
  - change (3 + 1 < 5). lia.
  - lia.
  - change (3 + 1 < 5). lia.
  - reflexivity.
  - discriminate.
  - reflexivity.
  - change (NoDup [(4, 4); (3, 3); (3, 4); (4, 3)]).
    repeat constructor; simpl; intuition congruence.
  - change (same_cells [(4, 4); (3, 3); (3, 4); (4, 3)] (block 3 3)).
    intros p. unfold block. simpl. tauto.
Defined.

(** ** Looking a button up by row and column *)

Lemma mod_wrap (n i : Z) :
  - n <= i < n -> i mod n = if i <? 0 then n + i else i.
Proof.
  intros H. destruct (Z.ltb_spec i 0).
  - replace i with ((n + i) + (-1) * n) at 1 by lia.
    rewrite Z_mod_plus_full. apply Z.mod_small. lia.
  - apply Z.mod_small. lia.
Qed.

Lemma cell_at_in_range (b : Board) (row col : Z) :
  grid_ok b -> - nrows b <= row < nrows b -> - ncols b <= col < ncols b ->
  cell_at row col b = (Ret (row mod nrows b, col mod ncols b), b).
Proof.
  intros G Hr Hc.
  rewrite (mod_wrap (nrows b) row Hr), (mod_wrap (ncols b) col Hc).
  destruct (Z.ltb_spec row 0) as [Nr|Nr].
  - apply cell_at_wraps; [exact G | lia | exact Hc].
  - destruct (Z.ltb_spec col 0) as [Nc|Nc].
    + unfold cell_at, bind, gets. rewrite G.
      rewrite getitem_make_grid by lia. cbn [from_option ret].
      rewrite getitem_wraps by (rewrite grid_row_length; lia).
      rewrite grid_row_length, Z.max_r by lia.
      rewrite getitem_grid_row by lia. reflexivity.
    + apply cell_at_in_grid; [exact G | split; lia].
Qed.

(** X15: on a placed board, a toggle by column and row follows
    Python's indexing of [cells[row][col]] in both directions: with the
    row within [-nrows .. nrows-1] and the column within
    [-ncols .. ncols-1] it is the toggle of the button at row
    [row mod nrows] and column [col mod ncols], so a negative column
    counts from the right edge as a negative row counts from the bottom;
    with the row or the column outside these ranges it raises
    [IndexError] and changes nothing. *)
Theorem toggle_cell_by_index (b : Board) (col row : Z) :
  grid_ok b ->
  (- nrows b <= row < nrows b -> - ncols b <= col < ncols b ->
   toggle_cell (ByCoord col row) b =
   toggle_cell (ByButton (row mod nrows b, col mod ncols b)) b) /\
  (~ (- nrows b <= row < nrows b /\ - ncols b <= col < ncols b) ->
   toggle_cell (ByCoord col row) b = (Raise IndexError, b)).
Proof.
  intros G. split.
  - intros Hr Hc. unfold toggle_cell, resolve, bind at 1.
    rewrite (cell_at_in_range b row col G Hr Hc). reflexivity.
  - intros H. unfold toggle_cell, resolve, bind.
    rewrite (cell_at_outside b row col G) by lia. reflexivity.
Qed.

(** Column -1 of row 2, and column 5, on the 5 x 5 board. *)
Lemma toggle_cell_by_index_witness :
  toggle_cell (ByCoord (-1) 2) board5 = toggle_cell (ByButton (2, 4)) board5 /\
  toggle_cell (ByCoord 5 2) board5 = (Raise IndexError, board5).
Proof.
  split.
  - apply (proj1 (toggle_cell_by_index board5 (-1) 2 board5_grid_ok));
      vm_compute; split; congruence.
  - apply (proj2 (toggle_cell_by_index board5 5 2 board5_grid_ok)).
    vm_compute. intros [_ [_ H]]. discriminate H.
Defined.
